(** * SmolVLM2 demo: model-tier resolution and the Streamlit client

    A shallow embedding of [backend/download_model.py] and
    [frontend/app.py], with the properties of the design document proved
    over it.

    Python [str] values are sequences of Unicode code points, [bytes]
    values sequences of bytes, dictionaries finite maps ([gmap]) or, where
    the iteration order is observed, association lists in insertion order.
    Code that can raise returns a [res]; code that displays widgets, sends
    HTTP requests or writes [st.session_state] runs in the monad [M]. *)

From Stdlib Require Import ZArith NArith Floats.
From stdpp Require Import gmap list strings.

Set Default Proof Using "Type".
Set Warnings "-register-all".
Open Scope N_scope.

(** ** Python strings *)

Abbreviation pystr := (list N).
Abbreviation pybytes := (list Byte.byte).

(** A string literal of the source (ASCII only). *)
Definition lit (s : string) : pystr :=
  Ascii.N_of_ascii <$> String.list_ascii_of_string s.
Arguments lit : simpl never.

Module PyStr.

(** [str.isspace] on one code point, as [str.strip()] with no argument
    uses it: the ASCII white space and separators, then the Unicode
    white-space code points. *)
Definition isspace (c : N) : bool :=
  (9 <=? c) && (c <=? 13) || (28 <=? c) && (c <=? 32)
  || (c =? 133) || (c =? 160) || (c =? 5760)
  || (8192 <=? c) && (c <=? 8202)
  || (c =? 8232) || (c =? 8233) || (c =? 8239) || (c =? 8287) || (c =? 12288).

Fixpoint lstrip (s : pystr) : pystr :=
  match s with
  | c :: s' => if isspace c then lstrip s' else s
  | [] => []
  end.

Definition rstrip (s : pystr) : pystr := reverse (lstrip (reverse s)).

(** [s.strip()] *)
Definition strip (s : pystr) : pystr := rstrip (lstrip s).

(** [s.startswith(prefix)] *)
Fixpoint startswith (s prefix : pystr) {struct prefix} : bool :=
  match prefix, s with
  | [], _ => true
  | p :: prefix', c :: s' => (c =? p) && startswith s' prefix'
  | _ :: _, [] => false
  end.

(** [sub in s] *)
Fixpoint contains (s sub : pystr) : bool :=
  startswith s sub
  || match s with
     | [] => false
     | _ :: s' => contains s' sub
     end.

(** [s.split(sep, 1)] for a one-character separator: the list of the
    one or two pieces. *)
Fixpoint split1 (s : pystr) (sep : N) : list pystr :=
  match s with
  | [] => [[]]
  | c :: s' =>
      if c =? sep then [[]; s']
      else match split1 s' sep with
           | h :: t => (c :: h) :: t
           | [] => [[c]]
           end
  end.

Section Upper.
(** The upper-case mapping of the Unicode database for the code points
    above ASCII (one code point can map to several). *)
Variable unicode_upper : N → pystr.

Definition upper_cp (c : N) : pystr :=
  if (97 <=? c) && (c <=? 122) then [c - 32]
  else if c <? 128 then [c]
  else unicode_upper c.

(** [s.upper()] *)
Definition upper (s : pystr) : pystr := s ≫= upper_cp.
End Upper.

(** The mapping that leaves every code point above ASCII alone; it
    agrees with Python on ASCII strings. *)
Definition no_unicode_upper (c : N) : pystr := [c].

(** What [sub in s] means. *)
Definition substring (sub s : pystr) : Prop :=
  ∃ pre post, s = pre ++ sub ++ post.

Definition blank (s : pystr) : Prop := Forall (λ c, isspace c = true) s.

End PyStr.

(** ** Exceptions *)

Record exn := Exn { exn_class : pystr; exn_str : pystr }.

Inductive res (A : Type) : Type :=
  | Ok (a : A)
  | Raise (e : exn).
Arguments Ok {A} a.
Arguments Raise {A} e.

(** ** backend/download_model.py *)

Module DownloadModel.
Import PyStr.

(** The dictionary literal of lines 8 to 14, in insertion order (the
    order [MODEL_SIZES.keys()] iterates in). *)
Definition MODEL_SIZES : list (pystr * pystr) :=
  [ (lit "256M", lit "HuggingFaceTB/SmolVLM2-256M-Video-Instruct");
    (lit "500M", lit "HuggingFaceTB/SmolVLM2-500M-Video-Instruct");
    (lit "2.2B", lit "HuggingFaceTB/SmolVLM2-2.2B-Instruct");
    (lit "1B", lit "HuggingFaceTB/SmolVLM2-2.2B-Instruct");
    (lit "2B", lit "HuggingFaceTB/SmolVLM2-2.2B-Instruct") ].

Definition keys (d : list (pystr * pystr)) : list pystr := d.*1.

(** [d.get(key)] as an option *)
Fixpoint lookup_item (d : list (pystr * pystr)) (key : pystr) : option pystr :=
  match d with
  | [] => None
  | (k, v) :: d' => if decide (k = key) then Some v else lookup_item d' key
  end.

(** [key in d] *)
Definition has_key (d : list (pystr * pystr)) (key : pystr) : bool :=
  bool_decide (is_Some (lookup_item d key)).

(** [d[key]] *)
Definition getitem (d : list (pystr * pystr)) (key : pystr) : res pystr :=
  match lookup_item d key with
  | Some v => Ok v
  | None => Raise (Exn (lit "KeyError") (lit "'" ++ key ++ lit "'"))
  end.

(** [d.get(key, dflt)] *)
Definition get (d : list (pystr * pystr)) (key dflt : pystr) : pystr :=
  default dflt (lookup_item d key).

(** The [for ... else] of lines 17 to 22: the first key of the table
    that is a substring of [key] or has [key] as a substring, and
    ['256M'] when the loop ends without a [break]. *)
Fixpoint scan_keys (ks : list pystr) (key : pystr) : pystr :=
  match ks with
  | [] => lit "256M"
  | k :: ks' =>
      if contains key k || contains k key then k else scan_keys ks' key
  end.

Section Script.
Variable unicode_upper : N → pystr.
(** [os.environ] *)
Variable environ : gmap pystr pystr.

(** [os.getenv(name, dflt)] *)
Definition getenv (name dflt : pystr) : pystr := default dflt (environ !! name).

(** Lines 15 to 22: the key looked up at line 23. *)
Definition resolve_key (MODEL_SIZE : pystr) : pystr :=
  let key := upper unicode_upper MODEL_SIZE in
  if negb (has_key MODEL_SIZES key) then scan_keys (keys MODEL_SIZES) key
  else key.

(** The value of [MODEL_ID] after line 23, or the exception the
    script raised before. *)
Definition MODEL_ID : res pystr :=
  let MODEL_ID := getenv (lit "VQA_MODEL_ID") [] in
  let MODEL_SIZE := getenv (lit "MODEL_SIZE") (lit "256M") in
  match MODEL_ID with
  | [] =>
      let key := resolve_key MODEL_SIZE in
      match getitem MODEL_SIZES (lit "256M") with
      | Ok dflt => Ok (get MODEL_SIZES key dflt)
      | Raise e => Raise e
      end
  | _ :: _ => Ok MODEL_ID
  end.
End Script.

(** The three identifiers of the table. *)
Definition identifiers : list pystr :=
  [ lit "HuggingFaceTB/SmolVLM2-256M-Video-Instruct";
    lit "HuggingFaceTB/SmolVLM2-500M-Video-Instruct";
    lit "HuggingFaceTB/SmolVLM2-2.2B-Instruct" ].

(** What the script does from line 25 on: a line printed, or a model
    file fetched into the cache. *)
Inductive action :=
  | print (line : pystr)
  | AutoProcessor_from_pretrained (model_id : pystr)
  | AutoModelForImageTextToText_from_pretrained (model_id : pystr).

Section Download.
Variable unicode_upper : N → pystr.
Variable environ : gmap pystr pystr.
(** The two loaders of the transformers library: [None] when the call
    returns, the exception when it raises. *)
Variable processor_from_pretrained : pystr → option exn.
Variable model_from_pretrained : pystr → option exn.

(** Lines 4 to 28: how the script ends, and what it printed and fetched,
    oldest first. *)
Definition script : res unit * list action :=
  match MODEL_ID unicode_upper environ with
  | Raise e => (Raise e, [])
  | Ok model_id =>
      let started :=
        [ print (lit "Pre-downloading model " ++ model_id ++ lit " to cache...");
          AutoProcessor_from_pretrained model_id ] in
      match processor_from_pretrained model_id with
      | Some e => (Raise e, started)
      | None =>
          let fetched :=
            started ++ [AutoModelForImageTextToText_from_pretrained model_id] in
          match model_from_pretrained model_id with
          | Some e => (Raise e, fetched)
          | None =>
              (Ok (), fetched ++ [print ([9989] ++ lit " Model downloaded and cached.")])
          end
      end
  end.
End Download.

End DownloadModel.

(** ** Python values

    The values the client handles: what [resp.json()] can return (JSON
    decoded into Python), and the two objects the script stores under
    ['uploaded_image']. *)

Record uploaded_file := UploadedFile {
  name : pystr;
  getvalue : pybytes;
  type : pystr
}.

Inductive pyval :=
  | PNone
  | PBool (b : bool)
  | PInt (z : Z)
  | PFloat (f : float)
  | PStr (s : pystr)
  | PList (l : list pyval)
  | PDict (d : gmap pystr pyval)
  | PFile (f : uploaded_file)
  | PImage (src : pybytes).

Module Py.

(** [bool(v)], the test of [if v:] *)
Definition truthy (v : pyval) : bool :=
  match v with
  | PNone => false
  | PBool b => b
  | PInt z => negb (z =? 0)%Z
  | PFloat f => negb (f =? 0)%float
  | PStr s => negb (bool_decide (s = []))
  | PList l => negb (Nat.eqb (length l) 0)
  | PDict d => negb (Nat.eqb (size d) 0)
  | PFile _ | PImage _ => true
  end.

Definition type_name (v : pyval) : pystr :=
  match v with
  | PNone => lit "NoneType"
  | PBool _ => lit "bool"
  | PInt _ => lit "int"
  | PFloat _ => lit "float"
  | PStr _ => lit "str"
  | PList _ => lit "list"
  | PDict _ => lit "dict"
  | PFile _ => lit "UploadedFile"
  | PImage _ => lit "PngImageFile"
  end.

(** [v.get(key, dflt)]: only a dictionary has the method. *)
Definition get (v : pyval) (key : pystr) (dflt : pyval) : res pyval :=
  match v with
  | PDict d => Ok (default dflt (d !! key))
  | _ =>
      Raise (Exn (lit "AttributeError")
               (lit "'" ++ type_name v ++ lit "' object has no attribute 'get'"))
  end.

(** [v[:n]] *)
Definition slice_to (n : nat) (v : pyval) : res pyval :=
  match v with
  | PStr s => Ok (PStr (take n s))
  | PList l => Ok (PList (take n l))
  | PDict _ => Raise (Exn (lit "TypeError") (lit "unhashable type: 'slice'"))
  | _ =>
      Raise (Exn (lit "TypeError")
               (lit "'" ++ type_name v ++ lit "' object is not subscriptable"))
  end.

(** [a, b = parts] *)
Definition unpack2 (parts : list pystr) : res (pystr * pystr) :=
  match parts with
  | [a; b] => Ok (a, b)
  | _ =>
      Raise (Exn (lit "ValueError")
               (lit "not enough values to unpack (expected 2, got 1)"))
  end.

End Py.

(** ** HTTP and the page *)

Inductive request :=
  | GET (url : pystr) (timeout : Z)
  | POST_files (url : pystr) (files : list (pystr * (pystr * pybytes * pystr)))
      (timeout : Z)
  | POST_data (url : pystr) (data : list (pystr * pyval)) (timeout : Z).

(** A response of [requests]: [json] is what [resp.json()] returns or
    raises. *)
Record response := Response {
  status_code : Z;
  text : pystr;
  json : res pyval
}.

Inductive place := Main | Sidebar.

Inductive element :=
  | error | warning | success | info | spinner | subheader | write | image
  | markdown | heading.

(** One call of [st.error], [st.sidebar.write] and the like; [heading] is
    [st.header]. *)
Record widget := Widget {
  w_place : place;
  w_element : element;
  w_body : pyval
}.

(** What a run of the script has access to and leaves behind:
    [st.session_state], the widgets drawn so far and the requests sent so
    far, both oldest first. *)
Record ui := UI {
  session_state : gmap pystr pyval;
  page : list widget;
  sent : list request
}.

(** ** The monad of the script: state and exceptions *)

Definition M (A : Type) : Type := ui → res A * ui.

#[export] Instance M_ret : MRet M := λ A a s, (Ok a, s).

#[export] Instance M_bind : MBind M := λ A B f m s,
  match m s with
  | (Ok a, s') => f a s'
  | (Raise e, s') => (Raise e, s')
  end.

(** [try: body except Exception as e: handler] *)
Definition try_except {A} (body : M A) (handler : exn → M A) : M A := λ s,
  match body s with
  | (Ok a, s') => (Ok a, s')
  | (Raise e, s') => handler e s'
  end.

(** A pure computation that can raise. *)
Definition lift {A} (r : res A) : M A := λ s, (r, s).

Definition draw (w : widget) : M unit := λ s,
  (Ok (), UI (session_state s) (page s ++ [w]) (sent s)).

(** [st.session_state[key] = v] *)
Definition state_set (key : pystr) (v : pyval) : M unit := λ s,
  (Ok (), UI (<[key := v]> (session_state s)) (page s) (sent s)).

(** [st.session_state.get(key)] *)
Definition state_get (key : pystr) : M pyval := λ s,
  (Ok (default PNone (session_state s !! key)), s).

(** [st.session_state[key]] *)
Definition state_getitem (key : pystr) : M pyval := λ s,
  match session_state s !! key with
  | Some v => (Ok v, s)
  | None => (Raise (Exn (lit "KeyError") (lit "'" ++ key ++ lit "'")), s)
  end.

(** ** frontend/app.py *)

Module App.
Import PyStr.

(** Lines 22 to 27: a key that is missing is set to [None]. *)
Definition init_key (key : pystr) : M unit := λ s,
  match session_state s !! key with
  | None => state_set key PNone s
  | Some _ => (Ok (), s)
  end.

Definition init_session_state : M unit :=
  init_key (lit "vqa_session_id");;
  init_key (lit "vqa_caption");;
  init_key (lit "uploaded_image").

Section Script.
(** The text of the sidebar field "Backend API URL". *)
Variable api_url : pystr.
(** [base64.b64decode] of the Python library. *)
Variable b64decode : pystr → res pybytes.
(** [str(v)] of the Python library for the values that are not strings. *)
Variable builtin_str : pyval → pystr.
(** Whether [PIL.Image.open] recognises the bytes, or what it raises. *)
Variable Image_open : pybytes → option exn.
(** The network and the server behind it: what a request returns or
    raises, given the requests sent before it (oldest first). *)
Variable backend : list request → request → res response.

(** [f"{v}"] and [str(v)] *)
Definition format (v : pyval) : pystr :=
  match v with
  | PStr s => s
  | _ => builtin_str v
  end.

Definition st (e : element) (body : pystr) : M unit :=
  draw (Widget Main e (PStr body)).

Definition st_sidebar (e : element) (body : pystr) : M unit :=
  draw (Widget Sidebar e (PStr body)).

(** [with st.spinner(text): body] *)
Definition with_spinner {A} (text : pystr) (body : M A) : M A :=
  st spinner text;; body.

Definition send (r : request) : M response := λ s,
  (backend (sent s) r, UI (session_state s) (page s) (sent s ++ [r])).

Definition requests_get (url : pystr) (timeout : Z) : M response :=
  send (GET url timeout).

(** Lines 31 to 37. *)
Definition check_backend_health : M bool :=
  try_except
    (resp ← requests_get (api_url ++ lit "/health") 5;
     mret (status_code resp =? 200)%Z)
    (λ _, mret false).

(** Lines 58 to 63: the bytes of a pasted image. *)
Definition pasted_bytes (paste_data : pystr) : res pybytes :=
  let data := strip paste_data in
  match
    (if startswith data (lit "data:")
     then match Py.unpack2 (split1 data 44) with
          | Ok (_, b64) => Ok b64
          | Raise e => Raise e
          end
     else Ok data)
  with
  | Ok b64 => b64decode b64
  | Raise e => Raise e
  end.

(** Lines 84 to 87, and again lines 112 to 115: the detail of a response
    that is not a success. *)
Definition response_detail (resp : response) : M pyval :=
  try_except
    (body ← lift (json resp);
     lift (Py.get body (lit "detail") (PStr (text resp))))
    (λ _, mret (PStr (text resp))).

(** What that detail is: the ['detail'] field of a body that is a JSON
    object, and the text of the body when there is no such field or no
    such body. *)
Definition error_detail (resp : response) : pyval :=
  match json resp with
  | Ok (PDict d) => default (PStr (text resp)) (d !! lit "detail")
  | _ => PStr (text resp)
  end.

(** The two requests of the client that carry data. *)
Definition init_request (files : list (pystr * (pystr * pybytes * pystr))) : request :=
  POST_files (api_url ++ lit "/api/vqa/init") files 120.

Definition ask_request (session_id : pyval) (question : pystr) : request :=
  POST_data (api_url ++ lit "/api/vqa/ask")
    [(lit "session_id", session_id); (lit "question", PStr question)] 60.

Definition health_request : request := GET (api_url ++ lit "/health") 5.

(** Lines 69 to 89: the request and what is made of the response. *)
Definition post_init (files : list (pystr * (pystr * pybytes * pystr))) : M bool :=
  resp ← with_spinner (lit "Processing image and generating caption...")
           (send (POST_files (api_url ++ lit "/api/vqa/init") files 120));
  if (status_code resp =? 200)%Z then
    data ← lift (json resp);
    session_id ← lift (Py.get data (lit "session_id") PNone);
    state_set (lit "vqa_session_id") session_id;;
    caption ← lift (Py.get data (lit "caption") PNone);
    state_set (lit "vqa_caption") caption;;
    st success ([9989] ++ lit " VQA session created successfully!");;
    mret true
  else
    detail ← response_detail resp;
    st error (lit "Init failed: " ++ format detail);;
    mret false.

(** Lines 40 to 93. *)
Definition init_vqa_session (uploaded_file : option uploaded_file)
    (paste_data : pystr) : M bool :=
  try_except
    (healthy ← check_backend_health;
     if negb healthy then
       st error ([10060] ++ lit " Backend is offline. Make sure it's running on "
                 ++ api_url);;
       mret false
     else
       match uploaded_file with
       | Some f => post_init [(lit "image", (name f, getvalue f, type f))]
       | None =>
           if Py.truthy (PStr paste_data) then
             img_bytes ← lift (pasted_bytes paste_data);
             post_init [(lit "image", (lit "pasted.png", img_bytes, lit "image/png"))]
           else
             st warning (lit "Please upload an image or paste image data first");;
             mret false
       end)
    (λ e, st error (lit "Request error: " ++ exn_str e);; mret false).

(** Lines 96 to 121: the answer, or [None]. *)
Definition ask_question (session_id : pyval) (question : pystr) : M pyval :=
  try_except
    (resp ← with_spinner (lit "Thinking...")
              (send (POST_data (api_url ++ lit "/api/vqa/ask")
                       [(lit "session_id", session_id);
                        (lit "question", PStr question)] 60));
     if (status_code resp =? 200)%Z then
       body ← lift (json resp);
       lift (Py.get body (lit "answer") PNone)
     else
       detail ← response_detail resp;
       st error (lit "Ask failed: " ++ format detail);;
       mret PNone)
    (λ e, st error (lit "Request error: " ++ exn_str e);; mret PNone).

(** Lines 152 to 157: the bytes the preview opens. *)
Definition preview_bytes (paste_data : pystr) : res pybytes :=
  let data := strip paste_data in
  match
    (if startswith data (lit "data:")
     then match Py.unpack2 (split1 data 44) with
          | Ok (header, b64) => Ok b64
          | Raise e => Raise e
          end
     else Ok data)
  with
  | Ok b64 => b64decode b64
  | Raise e => Raise e
  end.

(** [Image.open(...)]: the image object, or the exception. *)
Definition open_image (src : pybytes) : res pyval :=
  match Image_open src with
  | None => Ok (PImage src)
  | Some e => Raise e
  end.

(** Lines 146 to 164: the preview of the selected image (the widget
    without its caption). *)
Definition preview (uploaded_file : option uploaded_file)
    (paste_data : pystr) : M unit :=
  preview_image ←
    match uploaded_file with
    | Some f =>
        img ← lift (open_image (getvalue f));
        state_set (lit "uploaded_image") (PFile f);;
        mret img
    | None =>
        if Py.truthy (PStr paste_data) then
          try_except
            (img_bytes ← lift (preview_bytes paste_data);
             img ← lift (open_image img_bytes);
             state_set (lit "uploaded_image") img;;
             mret img)
            (λ _, st error (lit "Failed to parse image. Check your data URL or base64.");;
                  mret PNone)
        else mret PNone
    end;
  match preview_image with
  | PNone => mret ()
  | img => draw (Widget Main image img)
  end.

(** [st.rerun()]: the run of the script stops here and a new one starts. *)
Definition st_rerun : M unit :=
  lift (Raise (Exn (lit "RerunException") [])).

(** Lines 169 to 171: the button "Init VQA (create session)" was clicked. *)
Definition init_button_clicked (uploaded_file : option uploaded_file)
    (paste_data : pystr) : M unit :=
  created ← init_vqa_session uploaded_file paste_data;
  if (created : bool) then st_rerun else mret ().

(** Lines 173 to 176: the session status. *)
Definition session_status : M unit :=
  sid ← state_get (lit "vqa_session_id");
  if Py.truthy sid then
    sid ← state_getitem (lit "vqa_session_id");
    prefix ← lift (Py.slice_to 8 sid);
    st success ([9989] ++ lit " Session Active" ++ [10] ++ lit "ID: "
                ++ format prefix ++ lit "...")
  else
    st info ([10060] ++ lit " No active session").

(** Lines 203 to 210: the button "Ask" was clicked with [question] in the
    text field. *)
Definition ask_button_clicked (question : pystr) : M unit :=
  if negb (Py.truthy (PStr (strip question))) then
    st error (lit "Question cannot be empty")
  else
    sid ← state_getitem (lit "vqa_session_id");
    answer ← ask_question sid question;
    if Py.truthy answer then
      st subheader ([128172] ++ lit " Answer");;
      draw (Widget Main success answer)
    else mret ().

(** Lines 179 to 213: the section "Interact with Image". The text field
    and the button of lines 194 to 201 are the inputs of the run:
    [question] is what the field holds and [ask_button] whether the
    button was clicked. *)
Definition vqa_section (ask_button : bool) (question : pystr) : M unit :=
  sid ← state_get (lit "vqa_session_id");
  if Py.truthy sid then
    st markdown (lit "---");;
    st heading ([50; 65039; 8419] ++ lit " Interact with Image");;
    caption ← state_get (lit "vqa_caption");
    (if Py.truthy caption then
       st subheader ([128221] ++ lit " Initial Caption");;
       caption ← state_getitem (lit "vqa_caption");
       draw (Widget Main info caption)
     else mret ());;
    st subheader ([10067] ++ lit " Ask Questions");;
    st write [];;
    if ask_button then ask_button_clicked question else mret ()
  else
    st info ([128070] ++ lit " Start by uploading an image and clicking 'Init VQA'").

(** Lines 219 to 230: the backend status of the sidebar. *)
Definition sidebar_status : M unit :=
  healthy ← check_backend_health;
  if (healthy : bool) then
    st_sidebar success ([9989] ++ lit " Healthy");;
    try_except
      (health_resp ← requests_get (api_url ++ lit "/health") 5;
       health_data ← lift (json health_resp);
       model ← lift (Py.get health_data (lit "model") (PStr (lit "Unknown")));
       st_sidebar write (lit "Model: " ++ format model);;
       device ← lift (Py.get health_data (lit "device") (PStr (lit "Unknown")));
       st_sidebar write (lit "Device: " ++ format device))
      (λ _, mret ())
  else
    st_sidebar error ([10060] ++ lit " Offline");;
    st_sidebar warning (lit "Backend URL: " ++ api_url).

End Script.

(** What the [except] of lines 91 to 93 makes of the run of the [try]
    block: an exception becomes the error on the page and [False]. *)
Definition caught (r : res bool * ui) : res bool * ui :=
  match r with
  | (Raise e, s) =>
      (Ok false,
       UI (session_state s)
         (page s ++ [Widget Main error (PStr (lit "Request error: " ++ exn_str e))])
         (sent s))
  | (Ok created, s) => (Ok created, s)
  end.

(** The session state the script starts a first run with. *)
Definition fresh : ui := UI ∅ [] [].

End App.

(** ** Servers and library stand-ins to run the client against *)

Module Demo.

Definition url : pystr := lit "http://localhost:8000".

(** A decoder that knows one string. *)
Definition b64decode (s : pystr) : res pybytes :=
  if decide (s = lit "aGk=") then Ok [Byte.x68; Byte.x69]
  else Raise (Exn (lit "binascii.Error") (lit "Incorrect padding")).

Definition builtin_str (v : pyval) : pystr :=
  match v with
  | PNone => lit "None"
  | PBool true => lit "True"
  | PBool false => lit "False"
  | _ => lit "<object>"
  end.

Definition Image_open (src : pybytes) : option exn := None.

Definition quoted (s : string) : pystr := [34] ++ lit s ++ [34].

Fixpoint join (sep : pystr) (parts : list pystr) : pystr :=
  match parts with
  | [] => []
  | [part] => part
  | part :: parts' => part ++ sep ++ join sep parts'
  end.

(** The dictionary with the given string fields. *)
Definition dict (fields : list (string * string)) : gmap pystr pyval :=
  list_to_map ((λ kv, (lit kv.1, PStr (lit kv.2))) <$> fields).

(** A response whose body is the JSON object with the given string
    fields. *)
Definition json_response (status : Z) (fields : list (string * string)) : response :=
  Response status
    (lit "{" ++ join (lit ",") ((λ kv, quoted kv.1 ++ lit ":" ++ quoted kv.2) <$> fields)
     ++ lit "}")
    (Ok (PDict (dict fields))).

(** A server that works. *)
Definition serving (before : list request) (r : request) : res response :=
  match r with
  | GET _ _ =>
      Ok (json_response 200
            [("status", "ok"); ("model", "HuggingFaceTB/SmolVLM2-256M-Video-Instruct");
             ("device", "cpu")])
  | POST_files _ _ _ =>
      Ok (json_response 200
            [("session_id", "3f2a9c1e-5b7d-4c1a-9e2f-0a1b2c3d4e5f");
             ("caption", "A red square on a white background.")])
  | POST_data _ _ _ => Ok (json_response 200 [("answer", "Red.")])
  end.

(** A server that is up but has not loaded its model. *)
Definition loading (before : list request) (r : request) : res response :=
  Ok (json_response 503 [("detail", "Model is loading")]).

(** A server that has lost the session. *)
Definition expired (before : list request) (r : request) : res response :=
  match r with
  | POST_data _ _ _ => Ok (json_response 404 [("detail", "Session not found")])
  | _ => serving before r
  end.

(** A server that rejects the image. *)
Definition rejecting (before : list request) (r : request) : res response :=
  match r with
  | POST_files _ _ _ => Ok (json_response 400 [("detail", "Invalid image file")])
  | _ => serving before r
  end.

(** No server at all. *)
Definition offline (before : list request) (r : request) : res response :=
  Raise (Exn (lit "ConnectionError") (lit "Connection refused")).

(** A file chosen in the uploader. *)
Definition photo : uploaded_file :=
  UploadedFile (lit "cat.jpg") [Byte.xff; Byte.xd8; Byte.xff] (lit "image/jpeg").

(** The state of a client that holds a session. *)
Definition in_session : ui :=
  UI {[ lit "vqa_session_id" := PStr (lit "3f2a9c1e-5b7d-4c1a-9e2f-0a1b2c3d4e5f");
        lit "vqa_caption" := PStr (lit "A red square on a white background.");
        lit "uploaded_image" := PNone ]} [] [].

End Demo.

(** ** The session store of the inference service *)

Module SessionStore.
Import PyStr.

(** Modelled from the spec: the Session of the data model (section 3);
    the server that holds it is not among the sources. *)
Record Session := mkSession {
  s_image : pybytes;
  s_caption : pystr;
  history : list (pystr * pystr);
  last_accessed : Z
}.

(** Modelled from the spec: the error kinds of section 7. *)
Inductive error_kind :=
  | DecodeError | InvalidInput | SessionNotFound | InferenceFailure | InternalError.

(** Modelled from the spec: a call of the Model Inference Service
    (section 2), [caption(image)] or
    [answer(image, conversation_history, question)]. *)
Inductive inference_call :=
  | caption_call (img : pybytes)
  | answer_call (img : pybytes) (conversation_history : list (pystr * pystr))
      (question : pystr).

(** Modelled from the spec: the table of section 4.1, with the calls made
    to the inference service so far (oldest first). *)
Record store := mkStore {
  table : gmap pystr Session;
  calls : list inference_call
}.

Section Store.
(** The two operations of the inference service; [None] is a failure
    (timeout or model exception). *)
Variable caption : pybytes → option pystr.
Variable answer : pybytes → list (pystr * pystr) → pystr → option pystr.

(** Modelled from the spec: [create(image) -> (session_id, caption)] of
    section 4.1, the fresh identifier given as [session_id]. *)
Definition create (session_id : pystr) (now : Z) (img : pybytes) (st : store)
    : (error_kind + pystr * pystr) * store :=
  let st1 := mkStore (table st) (calls st ++ [caption_call img]) in
  match caption img with
  | None => (inl InferenceFailure, st1)
  | Some c =>
      (inr (session_id, c),
       mkStore (<[session_id := mkSession img c [] now]> (table st1)) (calls st1))
  end.

(** Modelled from the spec: [ask(session_id, question) -> answer] of
    section 4.1. The session must be in the table and the question
    non-empty after trimming; the service is called with the image, the
    full prior history and the new question; a success appends the turn
    and updates [last_accessed], a failure leaves the table as it was. *)
Definition ask (now : Z) (session_id question : pystr) (st : store)
    : (error_kind + pystr) * store :=
  match table st !! session_id with
  | None => (inl SessionNotFound, st)
  | Some s =>
      match strip question with
      | [] => (inl InvalidInput, st)
      | _ :: _ =>
          let st1 :=
            mkStore (table st)
              (calls st ++ [answer_call (s_image s) (history s) question]) in
          match answer (s_image s) (history s) question with
          | None => (inl InferenceFailure, st1)
          | Some a =>
              let s' :=
                mkSession (s_image s) (s_caption s)
                  (history s ++ [(question, a)]) now in
              (inr a, mkStore (<[session_id := s']> (table st1)) (calls st1))
          end
      end
  end.

(** A run of [ask] requests, each with its time, session identifier and
    question: the results in order, and the store afterwards. *)
Fixpoint asks (reqs : list (Z * pystr * pystr)) (st : store)
    : list (error_kind + pystr) * store :=
  match reqs with
  | [] => ([], st)
  | (now, session_id, question) :: reqs' =>
      let (r, st1) := ask now session_id question st in
      let (rs, st2) := asks reqs' st1 in
      (r :: rs, st2)
  end.

End Store.

(** The turns a run of requests appended for one session: the questions
    asked of it that were answered, each with its answer, in the order of
    the requests. *)
Fixpoint turns (session_id : pystr) (reqs : list (Z * pystr * pystr))
    (results : list (error_kind + pystr)) : list (pystr * pystr) :=
  match reqs, results with
  | (_, sid, q) :: reqs', inr a :: results' =>
      if decide (sid = session_id) then (q, a) :: turns session_id reqs' results'
      else turns session_id reqs' results'
  | _ :: reqs', inl _ :: results' => turns session_id reqs' results'
  | _, _ => []
  end.

End SessionStore.

Module StoreDemo.
Import SessionStore.

Definition sid : pystr := lit "3f2a9c1e-5b7d-4c1a-9e2f-0a1b2c3d4e5f".

Definition other : pystr := lit "9d0c7b6a-1f2e-4d3c-8b7a-6f5e4d3c2b1a".

(** An inference service that answers with the number of turns it was
    shown, and fails on the question ["fail"]. *)
Definition answer (img : pybytes) (conversation_history : list (pystr * pystr))
    (question : pystr) : option pystr :=
  if decide (question = lit "fail") then None
  else Some (lit "answer after " ++ [48 + N.of_nat (length conversation_history)]).

(** An inference service whose answer spells out what it was shown: the
    questions of the history in their order, each followed by a bar. It
    fails on the question ["fail"]. *)
Definition recall (img : pybytes) (conversation_history : list (pystr * pystr))
    (question : pystr) : option pystr :=
  if decide (question = lit "fail") then None
  else Some (concat ((λ turn, turn.1 ++ lit "|") <$> conversation_history)).

(** A store with two sessions, the first with one turn. *)
Definition two_sessions : store :=
  mkStore
    {[ sid := mkSession [Byte.x68; Byte.x69] (lit "A red square.")
                [(lit "What color is the shape?", lit "Red.")] 100;
       other := mkSession [Byte.x68] (lit "A cat.") [] 120 ]}
    [].

End StoreDemo.

(** * Properties *)

(** ** Strings *)

Section PyStrFacts.
Import PyStr.

Example strip_both_ends :
  strip ([9] ++ lit "  What color? " ++ [10; 160]) = lit "What color?".
Proof. reflexivity. Qed.

Example strip_spaces : strip (lit "   ") = [].
Proof. reflexivity. Qed.

Example split1_first_comma :
  split1 (lit "data:image/png;base64,aGk=,tail") 44
  = [lit "data:image/png;base64"; lit "aGk=,tail"].
Proof. reflexivity. Qed.

Example split1_no_comma : split1 (lit "data:aGk=") 44 = [lit "data:aGk="].
Proof. reflexivity. Qed.

Example upper_ascii : upper no_unicode_upper (lit "2.2b") = lit "2.2B".
Proof. reflexivity. Qed.

Example contains_empty : contains (lit "256M") [] = true.
Proof. reflexivity. Qed.

Example contains_inside : contains (lit "2.2B") (lit "2B") = true.
Proof. reflexivity. Qed.

Lemma startswith_spec (s prefix : pystr) :
  startswith s prefix = true ↔ ∃ rest, s = prefix ++ rest.
Proof.
  revert s. induction prefix as [|p prefix IH]; intros s; simpl.
  - split; eauto.
  - destruct s as [|c s].
    + split; [done | intros [rest Hrest]; discriminate].
    + rewrite andb_true_iff, N.eqb_eq, IH. split.
      * intros [-> [rest ->]]. by exists rest.
      * intros [rest Hrest]. injection Hrest as -> ->. eauto.
Qed.

Lemma contains_spec (s sub : pystr) :
  contains s sub = true ↔ substring sub s.
Proof.
  unfold substring. induction s as [|c s IH]; simpl.
  - rewrite orb_false_r, startswith_spec. split.
    + intros [rest Hrest]. exists [], rest. done.
    + intros (pre & post & Heq). symmetry in Heq.
      apply app_eq_nil in Heq as [-> Heq]. eauto.
  - rewrite orb_true_iff, startswith_spec, IH. split.
    + intros [[rest ->] | (pre & post & ->)].
      * by exists [], rest.
      * by exists (c :: pre), post.
    + intros (pre & post & Heq). destruct pre as [|c' pre]; simpl in Heq.
      * left. eauto.
      * right. injection Heq as -> ->. eauto.
Qed.

Lemma contains_false (s sub : pystr) :
  contains s sub = false ↔ ¬ substring sub s.
Proof. rewrite <- contains_spec. destruct (contains s sub); naive_solver. Qed.

Lemma lstrip_blank (s : pystr) : blank s → lstrip s = [].
Proof. induction 1 as [|c s Hc _ IH]; simpl; [done | by rewrite Hc]. Qed.

Lemma strip_blank (s : pystr) : blank s → strip s = [].
Proof. intros Hs. unfold strip, rstrip. rewrite (lstrip_blank s Hs). reflexivity. Qed.

Lemma lstrip_blank_inv (s : pystr) : lstrip s = [] → blank s.
Proof.
  induction s as [|c s IH]; simpl; [constructor |].
  destruct (isspace c) eqn:Hc; [| done]. intros Hs.
  constructor; [done | by apply IH].
Qed.

Lemma lstrip_suffix (s : pystr) : ∃ pre, blank pre ∧ s = pre ++ lstrip s.
Proof.
  induction s as [|c s (pre & Hpre & IH)]; simpl.
  - exists []. split; [constructor | done].
  - destruct (isspace c) eqn:Hc.
    + exists (c :: pre). split; [by constructor |]. simpl. by f_equal.
    + exists []. split; [constructor | done].
Qed.

(** A string strips to nothing exactly when it is white space only. *)
Lemma strip_nil_iff (s : pystr) : strip s = [] ↔ blank s.
Proof.
  split; [| apply strip_blank].
  unfold strip, rstrip. intros Hs.
  apply (f_equal reverse) in Hs. rewrite reverse_involutive in Hs.
  change (reverse []) with (@nil N) in Hs.
  apply lstrip_blank_inv in Hs.
  destruct (lstrip_suffix s) as (pre & Hpre & Heq). rewrite Heq.
  apply Forall_app. split; [done |].
  unfold blank in Hs. rewrite Forall_reverse in Hs. done.
Qed.

Lemma split1_found (h t : pystr) (sep : N) :
  sep ∉ h → split1 (h ++ sep :: t) sep = [h; t].
Proof.
  induction h as [|c h IH]; simpl; intros Hh.
  - by rewrite N.eqb_refl.
  - apply not_elem_of_cons in Hh as [Hc Hh].
    destruct (N.eqb_spec c sep) as [->|_]; [done |]. by rewrite IH.
Qed.

Lemma split1_missing (s : pystr) (sep : N) :
  sep ∉ s → split1 s sep = [s].
Proof.
  induction s as [|c s IH]; simpl; intros Hs; [done |].
  apply not_elem_of_cons in Hs as [Hc Hs].
  destruct (N.eqb_spec c sep) as [->|_]; [done |]. by rewrite IH.
Qed.

Lemma lstrip_app_blank (ws s : pystr) : blank ws → lstrip (ws ++ s) = lstrip s.
Proof. induction 1 as [|c ws Hc _ IH]; simpl; [done | by rewrite Hc]. Qed.

Lemma lstrip_app_kept (s t : pystr) : lstrip s ≠ [] → lstrip (s ++ t) = lstrip s ++ t.
Proof.
  induction s as [|c s IH]; simpl; [done |].
  destruct (isspace c); [exact IH | done].
Qed.

Lemma rstrip_app_blank (s ws : pystr) : blank ws → rstrip (s ++ ws) = rstrip s.
Proof.
  intros Hws. unfold rstrip. rewrite reverse_app, lstrip_app_blank; [done |].
  unfold blank. by rewrite Forall_reverse.
Qed.

(** White space around a string does not change what it strips to. *)
Lemma strip_surrounded (pre s post : pystr) :
  blank pre → blank post → strip (pre ++ s ++ post) = strip s.
Proof.
  intros Hpre Hpost. unfold strip. rewrite lstrip_app_blank by done.
  destruct (lstrip s) as [|c s'] eqn:Hs.
  - apply lstrip_blank_inv in Hs.
    rewrite lstrip_blank; [done |]. by apply Forall_app.
  - rewrite lstrip_app_kept by (by rewrite Hs).
    rewrite Hs. by apply rstrip_app_blank.
Qed.

Lemma upper_cp_ascii (unicode_upper : N → pystr) (c : N) :
  c < 128 →
  ∃ c', upper_cp unicode_upper c = [c'] ∧ c' < 128
        ∧ upper_cp unicode_upper c' = [c'].
Proof.
  intros Hc. unfold upper_cp.
  destruct ((97 <=? c) && (c <=? 122)) eqn:Hlower.
  - apply andb_true_iff in Hlower as [Hlo Hhi].
    apply N.leb_le in Hlo, Hhi. exists (c - 32). split; [done |].
    split; [lia |].
    assert ((97 <=? c - 32) = false) as -> by (apply N.leb_gt; lia).
    cbn [andb]. by assert ((c - 32 <? 128) = true) as -> by (apply N.ltb_lt; lia).
  - exists c. apply N.ltb_lt in Hc as Hc'. by rewrite ?Hlower, !Hc'.
Qed.

(** Upper-casing an ASCII string twice is upper-casing it once. *)
Lemma upper_ascii_idemp (unicode_upper : N → pystr) (s : pystr) :
  Forall (λ c, c < 128) s →
  upper unicode_upper (upper unicode_upper s) = upper unicode_upper s.
Proof.
  unfold upper. induction 1 as [|c s Hc _ IH]; [done |].
  destruct (upper_cp_ascii unicode_upper c Hc) as (c' & Hc' & _ & Hidem).
  rewrite bind_cons, Hc'. change ([c'] ++ ?l) with (c' :: l).
  rewrite bind_cons, Hidem, IH. done.
Qed.

End PyStrFacts.

(** ** Model-tier resolution *)

Section DownloadModelFacts.
Import PyStr DownloadModel.

Lemma lookup_item_Some (d : list (pystr * pystr)) (key : pystr) :
  key ∈ keys d ↔ is_Some (lookup_item d key).
Proof.
  unfold keys. induction d as [|[k v] d IH]; simpl.
  - rewrite elem_of_nil. split; [done | by intros [? ?]].
  - rewrite elem_of_cons, IH. destruct (decide (k = key)) as [->|Hne].
    + split; eauto.
    + split; [intros [Heq | H]; [congruence | done] | eauto].
Qed.

Lemma lookup_item_elem_of (d : list (pystr * pystr)) (key v : pystr) :
  lookup_item d key = Some v → (key, v) ∈ d.
Proof.
  induction d as [|[k w] d IH]; simpl; [done |].
  destruct (decide (k = key)) as [->|Hne].
  - intros [= ->]. apply elem_of_cons. by left.
  - intros H. apply elem_of_cons. right. auto.
Qed.

Lemma has_key_true (d : list (pystr * pystr)) (key : pystr) :
  has_key d key = true ↔ key ∈ keys d.
Proof. unfold has_key. by rewrite bool_decide_eq_true, lookup_item_Some. Qed.

Lemma has_key_false (d : list (pystr * pystr)) (key : pystr) :
  has_key d key = false ↔ key ∉ keys d.
Proof. unfold has_key. by rewrite bool_decide_eq_false, lookup_item_Some. Qed.

Lemma get_getitem (d : list (pystr * pystr)) (key dflt : pystr) :
  key ∈ keys d → Ok (get d key dflt) = getitem d key.
Proof.
  rewrite lookup_item_Some. intros [v Hv]. unfold get, getitem. by rewrite Hv.
Qed.

(** The loop stops at the first key that matches. *)
Lemma scan_keys_first (before after : list pystr) (k key : pystr) :
  substring k key ∨ substring key k →
  (∀ k', k' ∈ before → ¬ (substring k' key ∨ substring key k')) →
  scan_keys (before ++ k :: after) key = k.
Proof.
  intros Hk. induction before as [|b before IH]; simpl; intros Hbefore.
  - rewrite <- !contains_spec, <- orb_true_iff in Hk. by rewrite Hk.
  - assert (contains key b || contains b key = false) as ->.
    { apply not_true_is_false. rewrite orb_true_iff, !contains_spec.
      apply Hbefore. apply elem_of_cons. by left. }
    apply IH. intros k' Hk'. apply Hbefore. apply elem_of_cons. by right.
Qed.

(** The loop falls through to its [else] when no key matches. *)
Lemma scan_keys_none (ks : list pystr) (key : pystr) :
  (∀ k, k ∈ ks → ¬ (substring k key ∨ substring key k)) →
  scan_keys ks key = lit "256M".
Proof.
  induction ks as [|k ks IH]; simpl; intros Hks; [done |].
  assert (contains key k || contains k key = false) as ->.
  { apply not_true_is_false. rewrite orb_true_iff, !contains_spec.
    apply Hks. apply elem_of_cons. by left. }
  apply IH. intros k' Hk'. apply Hks. apply elem_of_cons. by right.
Qed.

Lemma scan_keys_in (ks : list pystr) (key : pystr) :
  scan_keys ks key ∈ ks ∨ scan_keys ks key = lit "256M".
Proof.
  induction ks as [|k ks IH]; simpl; [by right |].
  destruct (contains key k || contains k key).
  - left. apply elem_of_cons. by left.
  - destruct IH as [IH | IH]; [left | by right]. apply elem_of_cons. by right.
Qed.

Lemma MODEL_SIZES_values (key id : pystr) :
  (key, id) ∈ MODEL_SIZES → id ∈ identifiers.
Proof.
  unfold MODEL_SIZES, identifiers. rewrite !elem_of_cons, !elem_of_nil.
  intros [H|[H|[H|[H|[H|[]]]]]]; injection H as _ ->; auto.
Qed.

Lemma MODEL_SIZES_functional (key id : pystr) :
  (key, id) ∈ MODEL_SIZES → lookup_item MODEL_SIZES key = Some id.
Proof.
  unfold MODEL_SIZES. rewrite !elem_of_cons, elem_of_nil.
  intros [H|[H|[H|[H|[H|[]]]]]]; injection H as -> ->; by vm_compute.
Qed.

Lemma MODEL_ID_unset (unicode_upper : N → pystr) (environ : gmap pystr pystr) :
  getenv environ (lit "VQA_MODEL_ID") [] = [] →
  MODEL_ID unicode_upper environ
  = Ok (get MODEL_SIZES
          (resolve_key unicode_upper (getenv environ (lit "MODEL_SIZE") (lit "256M")))
          (lit "HuggingFaceTB/SmolVLM2-256M-Video-Instruct")).
Proof. intros Hid. unfold MODEL_ID. rewrite Hid. reflexivity. Qed.

Example MODEL_ID_default :
  MODEL_ID no_unicode_upper ∅ = Ok (lit "HuggingFaceTB/SmolVLM2-256M-Video-Instruct").
Proof. reflexivity. Qed.

Example MODEL_ID_empty_tier :
  MODEL_ID no_unicode_upper {[ lit "MODEL_SIZE" := [] ]}
  = Ok (lit "HuggingFaceTB/SmolVLM2-256M-Video-Instruct").
Proof. by vm_compute. Qed.

Example MODEL_ID_2 :
  MODEL_ID no_unicode_upper {[ lit "MODEL_SIZE" := lit "2" ]}
  = Ok (lit "HuggingFaceTB/SmolVLM2-256M-Video-Instruct").
Proof. by vm_compute. Qed.

Example MODEL_ID_1b :
  MODEL_ID no_unicode_upper {[ lit "MODEL_SIZE" := lit "1b" ]}
  = Ok (lit "HuggingFaceTB/SmolVLM2-2.2B-Instruct").
Proof. by vm_compute. Qed.

Example MODEL_ID_unknown :
  MODEL_ID no_unicode_upper {[ lit "MODEL_SIZE" := lit "large" ]}
  = Ok (lit "HuggingFaceTB/SmolVLM2-256M-Video-Instruct").
Proof. by vm_compute. Qed.

Example MODEL_ID_verbatim :
  MODEL_ID no_unicode_upper
    {[ lit "VQA_MODEL_ID" := lit "org/model"; lit "MODEL_SIZE" := lit "2B" ]}
  = Ok (lit "org/model").
Proof. by vm_compute. Qed.

(** C3: at start-up an empty [VQA_MODEL_ID] makes the script resolve the
    identifier from the tier [MODEL_SIZE] (['256M'] when unset): the tier
    is upper-cased and looked up in the table with the keys ['256M'],
    ['500M'], ['2.2B'], ['1B'], ['2B'], so a tier whose upper-case form is a
    key of the table resolves to the identifier the table gives that key;
    a non-empty [VQA_MODEL_ID] is the identifier verbatim. The script
    raises in neither case. *)
Theorem C3_model_id_from_tier (unicode_upper : N → pystr)
    (environ : gmap pystr pystr) :
  let VQA_MODEL_ID := getenv environ (lit "VQA_MODEL_ID") [] in
  let MODEL_SIZE := getenv environ (lit "MODEL_SIZE") (lit "256M") in
  keys MODEL_SIZES = [lit "256M"; lit "500M"; lit "2.2B"; lit "1B"; lit "2B"]
  ∧ (VQA_MODEL_ID ≠ [] → MODEL_ID unicode_upper environ = Ok VQA_MODEL_ID)
  ∧ (VQA_MODEL_ID = [] →
     ∀ tier id, (tier, id) ∈ MODEL_SIZES →
       upper unicode_upper MODEL_SIZE = tier →
       MODEL_ID unicode_upper environ = Ok id).
Proof.
  intros VQA_MODEL_ID MODEL_SIZE. split; [reflexivity |]. split.
  - intros Hid. unfold MODEL_ID. fold VQA_MODEL_ID.
    destruct VQA_MODEL_ID; [done | reflexivity].
  - intros Hid tier id Hin Hupper.
    rewrite MODEL_ID_unset by exact Hid. f_equal.
    fold MODEL_SIZE. unfold resolve_key. rewrite Hupper.
    assert (has_key MODEL_SIZES tier = true) as ->.
    { apply has_key_true, lookup_item_Some.
      rewrite (MODEL_SIZES_functional _ _ Hin). eauto. }
    simpl. unfold get. by rewrite (MODEL_SIZES_functional _ _ Hin).
Qed.

(** The tier [500m], with no [VQA_MODEL_ID]. *)
Lemma C3_model_id_from_tier_witness :
  MODEL_ID no_unicode_upper {[ lit "MODEL_SIZE" := lit "500m" ]}
  = Ok (lit "HuggingFaceTB/SmolVLM2-500M-Video-Instruct").
Proof.
  apply (C3_model_id_from_tier no_unicode_upper
           {[ lit "MODEL_SIZE" := lit "500m" ]}) with (tier := lit "500M").
  - reflexivity.
  - unfold MODEL_SIZES. apply elem_of_cons. right. apply elem_of_cons. by left.
  - vm_compute. reflexivity.
Defined.

(** C8: with no [VQA_MODEL_ID], every value of [MODEL_SIZE] resolves,
    without an exception, to one of the three identifiers of the table. A
    tier whose upper-case form is not a key resolves to the entry of the
    first key, in the order of the table, that is a substring of it or has
    it as a substring, and to the 256M identifier when there is no such
    key. The tiers ['1B'] and ['2B'] resolve to the 2.2B identifier. *)
Theorem C8_tier_resolution_total (unicode_upper : N → pystr)
    (environ : gmap pystr pystr) :
  getenv environ (lit "VQA_MODEL_ID") [] = [] →
  let key := upper unicode_upper (getenv environ (lit "MODEL_SIZE") (lit "256M")) in
  (∃ id, MODEL_ID unicode_upper environ = Ok id ∧ id ∈ identifiers)
  ∧ (key ∉ keys MODEL_SIZES →
     (∀ before k after,
        keys MODEL_SIZES = before ++ k :: after →
        substring k key ∨ substring key k →
        (∀ k', k' ∈ before → ¬ (substring k' key ∨ substring key k')) →
        MODEL_ID unicode_upper environ = getitem MODEL_SIZES k)
     ∧ ((∀ k, k ∈ keys MODEL_SIZES → ¬ (substring k key ∨ substring key k)) →
        MODEL_ID unicode_upper environ
        = Ok (lit "HuggingFaceTB/SmolVLM2-256M-Video-Instruct")))
  ∧ (key = lit "1B" ∨ key = lit "2B" →
     MODEL_ID unicode_upper environ
     = Ok (lit "HuggingFaceTB/SmolVLM2-2.2B-Instruct")).
Proof.
  intros Hid key. rewrite (MODEL_ID_unset _ _ Hid).
  unfold resolve_key. fold key. split; [| split].
  - eexists. split; [reflexivity |]. unfold get.
    destruct (lookup_item MODEL_SIZES _) as [id|] eqn:Hlookup; simpl.
    + eapply MODEL_SIZES_values, lookup_item_elem_of, Hlookup.
    + unfold identifiers. apply elem_of_cons. by left.
  - intros Hkey. apply has_key_false in Hkey. rewrite Hkey. cbn [negb].
    split.
    + intros before k after Hkeys Hk Hbefore.
      rewrite Hkeys, (scan_keys_first _ _ _ _ Hk Hbefore).
      apply get_getitem. rewrite Hkeys, elem_of_app, elem_of_cons. auto.
    + intros Hnone. by rewrite (scan_keys_none _ _ Hnone).
  - intros [-> | ->]; reflexivity.
Qed.

(** The tier [b]: not a key, and ['2.2B'] is the first key that matches. *)
Lemma C8_tier_resolution_total_witness :
  MODEL_ID no_unicode_upper {[ lit "MODEL_SIZE" := lit "b" ]}
  = Ok (lit "HuggingFaceTB/SmolVLM2-2.2B-Instruct").
Proof.
  pose proof (C8_tier_resolution_total no_unicode_upper
                {[ lit "MODEL_SIZE" := lit "b" ]} eq_refl) as (_ & Hscan & _).
  destruct Hscan as [Hfirst _].
  { apply has_key_false. vm_compute. reflexivity. }
  rewrite (Hfirst [lit "256M"; lit "500M"] (lit "2.2B") [lit "1B"; lit "2B"]).
  - reflexivity.
  - reflexivity.
  - right. exists (lit "2.2"), []. reflexivity.
  - intros k'. rewrite <- !contains_spec, <- orb_true_iff.
    rewrite !elem_of_cons, elem_of_nil. intros [-> | [-> | []]]; by vm_compute.
Defined.

(** ** More on the download script *)

Lemma MODEL_SIZE_not_VQA_MODEL_ID : lit "MODEL_SIZE" ≠ lit "VQA_MODEL_ID".
Proof. intros H. by vm_compute in H. Qed.

(** X1: A tier can be given in any ASCII letter case: for a [MODEL_SIZE] of
    ASCII characters, putting its upper-case form in its place changes
    nothing in the identifier the script resolves, whatever
    [VQA_MODEL_ID] is. *)
Theorem MODEL_SIZE_ascii_case (unicode_upper : N → pystr)
    (environ : gmap pystr pystr) (tier : pystr) :
  Forall (λ c, c < 128) tier →
  MODEL_ID unicode_upper (<[lit "MODEL_SIZE" := upper unicode_upper tier]> environ)
  = MODEL_ID unicode_upper (<[lit "MODEL_SIZE" := tier]> environ).
Proof.
  intros Hascii. unfold MODEL_ID, getenv.
  rewrite !(lookup_insert_ne _ _ _ _ MODEL_SIZE_not_VQA_MODEL_ID).
  rewrite !lookup_insert_eq. cbn [from_option id].
  unfold resolve_key. by rewrite upper_ascii_idemp.
Qed.

(** The tier [SmolVLM-500m], as it is and upper-cased. *)
Lemma MODEL_SIZE_ascii_case_witness :
  MODEL_ID no_unicode_upper {[ lit "MODEL_SIZE" := lit "SMOLVLM-500M" ]}
  = MODEL_ID no_unicode_upper {[ lit "MODEL_SIZE" := lit "SmolVLM-500m" ]}.
Proof.
  pose proof (MODEL_SIZE_ascii_case no_unicode_upper ∅ (lit "SmolVLM-500m")) as H.
  rewrite !insert_empty in H. apply H.
  apply Forall_forall. intros c Hc. apply N.ltb_lt.
  revert c Hc. apply Forall_forall. by vm_compute; repeat constructor.
Defined.

(** X2: The substring fallback favours the first key of the table: with no
    [VQA_MODEL_ID], every tier whose upper-case form is a substring of
    ['256M'] (the empty tier, ['2'], ['5'], ['6M'] and so on) resolves to
    the 256M identifier, never to a larger model. *)
Theorem tier_inside_first_key (unicode_upper : N → pystr)
    (environ : gmap pystr pystr) :
  getenv environ (lit "VQA_MODEL_ID") [] = [] →
  substring (upper unicode_upper (getenv environ (lit "MODEL_SIZE") (lit "256M")))
    (lit "256M") →
  MODEL_ID unicode_upper environ
  = Ok (lit "HuggingFaceTB/SmolVLM2-256M-Video-Instruct").
Proof.
  intros Hid Hinside. rewrite (MODEL_ID_unset _ _ Hid). f_equal.
  unfold resolve_key.
  set (key := upper unicode_upper _) in *.
  apply contains_spec in Hinside.
  destruct (has_key MODEL_SIZES key) eqn:Hkey; cbn [negb].
  - apply has_key_true in Hkey. unfold keys, MODEL_SIZES in Hkey.
    cbn [fmap list_fmap fst] in Hkey.
    rewrite !elem_of_cons, elem_of_nil in Hkey.
    destruct Hkey as [->|[->|[->|[->|[->|[]]]]]];
      first [ reflexivity | by vm_compute in Hinside ].
  - unfold keys, MODEL_SIZES. cbn [fmap list_fmap fst scan_keys].
    rewrite Hinside, orb_true_r. reflexivity.
Qed.

(** The tier [2] gives the 256M model. *)
Lemma tier_inside_first_key_witness :
  MODEL_ID no_unicode_upper {[ lit "MODEL_SIZE" := lit "2" ]}
  = Ok (lit "HuggingFaceTB/SmolVLM2-256M-Video-Instruct").
Proof.
  apply (tier_inside_first_key no_unicode_upper {[ lit "MODEL_SIZE" := lit "2" ]}).
  - reflexivity.
  - exists [], (lit "56M"). reflexivity.
Defined.

(** X3: Lines 25 to 28: the script fetches the processor and then the model
    of the one identifier it resolved, and of no other; with no
    [VQA_MODEL_ID] this is one of the three identifiers of the table,
    whatever [MODEL_SIZE] holds. The processor is always fetched, right
    after the first line is printed; the model is fetched exactly when
    the fetch of the processor returned, and after it. An exception of a
    fetch ends the script; the script ends normally exactly when both
    fetches returned, and it has then printed the two lines and made the
    two fetches, each once, the completion line last. *)
Theorem script_fetches_resolved_model (unicode_upper : N → pystr)
    (environ : gmap pystr pystr)
    (processor_from_pretrained model_from_pretrained : pystr → option exn) :
  let run := script unicode_upper environ processor_from_pretrained
               model_from_pretrained in
  ∃ model_id,
    MODEL_ID unicode_upper environ = Ok model_id
    ∧ (getenv environ (lit "VQA_MODEL_ID") [] = [] → model_id ∈ identifiers)
    ∧ (∀ fetched,
         AutoProcessor_from_pretrained fetched ∈ run.2
         ∨ AutoModelForImageTextToText_from_pretrained fetched ∈ run.2 →
         fetched = model_id)
    ∧ (∃ rest,
         run.2
         = print (lit "Pre-downloading model " ++ model_id ++ lit " to cache...")
           :: AutoProcessor_from_pretrained model_id :: rest)
    ∧ (AutoModelForImageTextToText_from_pretrained model_id ∈ run.2 ↔
       processor_from_pretrained model_id = None)
    ∧ (∀ i j,
         run.2 !! i = Some (AutoProcessor_from_pretrained model_id) →
         run.2 !! j = Some (AutoModelForImageTextToText_from_pretrained model_id) →
         (i < j)%nat)
    ∧ (∀ e, processor_from_pretrained model_id = Some e → run.1 = Raise e)
    ∧ (∀ e, processor_from_pretrained model_id = None →
            model_from_pretrained model_id = Some e → run.1 = Raise e)
    ∧ (run.1 = Ok () ↔
       processor_from_pretrained model_id = None
       ∧ model_from_pretrained model_id = None)
    ∧ (run.1 = Ok () ↔
       last run.2 = Some (print ([9989] ++ lit " Model downloaded and cached.")))
    ∧ (run.1 = Ok () →
       run.2
       = [ print (lit "Pre-downloading model " ++ model_id ++ lit " to cache...");
           AutoProcessor_from_pretrained model_id;
           AutoModelForImageTextToText_from_pretrained model_id;
           print ([9989] ++ lit " Model downloaded and cached.") ]).
Proof.
  intros run. subst run. unfold script.
  assert (∃ model_id, MODEL_ID unicode_upper environ = Ok model_id
                      ∧ (getenv environ (lit "VQA_MODEL_ID") [] = [] →
                         model_id ∈ identifiers)) as (model_id & Hid & Htable).
  { destruct (getenv environ (lit "VQA_MODEL_ID") []) as [|c v] eqn:Hvqa.
    - rewrite (MODEL_ID_unset _ _ Hvqa). eexists. split; [reflexivity |].
      intros _. unfold get.
      destruct (lookup_item MODEL_SIZES _) as [id|] eqn:Hlookup; simpl.
      + eapply MODEL_SIZES_values, lookup_item_elem_of, Hlookup.
      + unfold identifiers. apply elem_of_cons. by left.
    - unfold MODEL_ID. rewrite Hvqa. eexists. split; [reflexivity | done]. }
  exists model_id. rewrite Hid. split; [done |]. split; [done |].
  destruct (processor_from_pretrained model_id) as [e|],
           (model_from_pretrained model_id) as [e'|]; cbn [fst snd app last].
  all: split;
    [ intros fetched; rewrite !elem_of_cons, !elem_of_nil; by intuition congruence |].
  all: split; [by eexists |].
  all: split; [rewrite !elem_of_cons, !elem_of_nil; by intuition congruence |].
  all: split;
    [ intros [|[|[|[|i]]]] [|[|[|[|j]]]] Hi Hj;
      cbn [lookup list_lookup] in Hi, Hj; first [ discriminate | lia ] |].
  all: split; [intros ? ?; by simplify_eq |].
  all: split; [intros ? ? ?; by simplify_eq |].
  all: split; [split; [done | by intros [? ?]] |].
  all: split; [| done].
  all: split; first [ done | intros [= H]; by vm_compute in H ].
Qed.

(** A tier that is in no table and loaders that return: the processor and
    the model of the 256M identifier are fetched, in this order. *)
Lemma script_fetches_resolved_model_witness :
  script no_unicode_upper {[ lit "MODEL_SIZE" := lit "huge" ]} (λ _, None) (λ _, None)
  = (Ok (),
     [ print (lit "Pre-downloading model HuggingFaceTB/SmolVLM2-256M-Video-Instruct to cache...");
       AutoProcessor_from_pretrained (lit "HuggingFaceTB/SmolVLM2-256M-Video-Instruct");
       AutoModelForImageTextToText_from_pretrained
         (lit "HuggingFaceTB/SmolVLM2-256M-Video-Instruct");
       print ([9989] ++ lit " Model downloaded and cached.") ]).
Proof.
  destruct (script_fetches_resolved_model no_unicode_upper
              {[ lit "MODEL_SIZE" := lit "huge" ]} (λ _, None) (λ _, None))
    as (model_id & Hid & _ & _ & _ & _ & _ & _ & _ & Hends & _ & Hlog).
  assert (model_id = lit "HuggingFaceTB/SmolVLM2-256M-Video-Instruct") as ->.
  { vm_compute in Hid. injection Hid as <-. vm_compute. reflexivity. }
  assert (Hok : (script no_unicode_upper {[ lit "MODEL_SIZE" := lit "huge" ]}
                   (λ _, None) (λ _, None)).1 = Ok ()).
  { apply Hends. split; reflexivity. }
  specialize (Hlog Hok).
  destruct (script no_unicode_upper {[ lit "MODEL_SIZE" := lit "huge" ]}
              (λ _, None) (λ _, None)) as [r log].
  cbn [fst snd] in Hok, Hlog. rewrite Hok, Hlog.
  f_equal; vm_compute; reflexivity.
Defined.

End DownloadModelFacts.

(** ** The client *)

Section AppFacts.
Import PyStr App.

Variable api_url : pystr.
Variable b64decode : pystr → res pybytes.
Variable builtin_str : pyval → pystr.
Variable Image_open : pybytes → option exn.
Variable backend : list request → request → res response.

(** Unfolds the monad, so that a run of the script computes. *)
Ltac run :=
  unfold requests_get, with_spinner, st, st_sidebar in *;
  unfold try_except, draw, send, lift, state_set, state_get, state_getitem,
    mbind, M_bind, mret, M_ret in *;
  cbn [session_state page sent fst snd] in *.

(** The detail of a response is [error_detail], and computing it has no
    effect. *)
Lemma response_detail_run (resp : response) (s : ui) :
  response_detail resp s = (Ok (error_detail resp), s).
Proof.
  unfold response_detail, error_detail. run.
  destruct (json resp) as [[]|]; reflexivity.
Qed.

(** Case analysis on every test and every call of a run. *)
Ltac cases :=
  repeat case_match;
  repeat match goal with
         | H : response_detail _ _ = _ |- _ =>
             rewrite response_detail_run in H
         end;
  simplify_eq; cbn [session_state page sent] in *.

(** Two results of the same call are the same result. *)
Ltac same_call :=
  repeat match goal with
         | H1 : ?x = ?a, H2 : ?x = ?b |- _ =>
             lazymatch a with
             | b => fail
             | _ => rewrite H1 in H2; simplify_eq
             end
         end.

(** A value whose [get] returned once is a dictionary. *)
Ltac get_dict :=
  try match goal with
      | H1 : Py.get ?v _ _ = Ok _, H2 : Py.get ?v _ _ = Raise _ |- _ =>
          by destruct v
      end.

(** Closes the branches a status test rules out. *)
Ltac status_test :=
  try match goal with
      | H : (status_code ?r =? 200)%Z = false, E : status_code ?r = 200%Z |- _ =>
          rewrite E in H; discriminate H
      | H : (status_code ?r =? 200)%Z = true, E : status_code ?r ≠ 200%Z |- _ =>
          apply Z.eqb_eq in H; contradiction
      end.

(** The health probe sends one request and returns whether it came back
    with status 200; the session state is not touched. *)
Lemma check_backend_health_run (s : ui) :
  check_backend_health api_url backend s
  = (Ok match backend (sent s) (GET (api_url ++ lit "/health") 5) with
        | Ok resp => (status_code resp =? 200)%Z
        | Raise _ => false
        end,
     UI (session_state s) (page s) (sent s ++ [GET (api_url ++ lit "/health") 5])).
Proof.
  unfold check_backend_health. run.
  by destruct (backend _ _).
Qed.

(** C7: the health probe returns [True] exactly when the GET of [/health]
    returns status 200; it returns [False], and does not raise, when the
    request fails; it sends that one request and leaves
    [st.session_state] as it was. The metadata the sidebar shows after a
    healthy probe is made of the ['model'] and ['device'] fields of the
    health response and of nothing else in it. *)
Theorem C7_health_probe (s : ui) :
  let probe := health_request api_url in
  (∃ healthy : bool,
     check_backend_health api_url backend s
     = (Ok healthy, UI (session_state s) (page s) (sent s ++ [probe]))
     ∧ (healthy = true ↔
        ∃ resp, backend (sent s) probe = Ok resp ∧ status_code resp = 200%Z))
  ∧ (∀ resp health_resp d,
       backend (sent s) probe = Ok resp → status_code resp = 200%Z →
       backend (sent s ++ [probe]) probe = Ok health_resp →
       json health_resp = Ok (PDict d) →
       sidebar_status api_url builtin_str backend s
       = (Ok (),
          UI (session_state s)
            (page s ++
             [ Widget Sidebar success (PStr ([9989] ++ lit " Healthy")) ;
               Widget Sidebar write
                 (PStr (lit "Model: " ++
                        format builtin_str
                          (default (PStr (lit "Unknown")) (d !! lit "model")))) ;
               Widget Sidebar write
                 (PStr (lit "Device: " ++
                        format builtin_str
                          (default (PStr (lit "Unknown")) (d !! lit "device")))) ])
            (sent s ++ [probe; probe]))).
Proof.
  intros probe. unfold health_request in probe. split.
  - eexists. split; [apply check_backend_health_run |]. fold probe.
    destruct (backend (sent s) probe) as [resp|e].
    + rewrite Z.eqb_eq. split; [eauto |]. by intros (? & [= <-] & ?).
    + split; [done |]. by intros (? & ? & ?).
  - intros resp health_resp d Hresp Hstatus Hhealth Hjson.
    unfold sidebar_status.
    unfold mbind at 1, M_bind at 1. rewrite check_backend_health_run.
    fold probe. rewrite Hresp, Hstatus. run.
    change (200 =? 200)%Z with true. cbv beta iota. cbn [sent page session_state].
    fold probe. rewrite Hhealth, Hjson. cbn [Py.get].
    by rewrite <- !(assoc_L (++)).
Qed.

(** C10: [init_vqa_session] returns a boolean; when it returns [False],
    whatever the reason, [st.session_state] is what it was, and the click
    handler of the button returns without a rerun. The entries
    ['vqa_session_id'] and ['vqa_caption'] differ afterwards only when the
    function returned [True], after the POST to [/api/vqa/init] came back
    with status 200. *)
Theorem C10_init_failure_frame (uploaded_file : option uploaded_file)
    (paste_data : pystr) (s : ui) :
  let probe := health_request api_url in
  ∃ (created : bool) (s' : ui),
    init_vqa_session api_url b64decode builtin_str backend uploaded_file paste_data s
    = (Ok created, s')
    ∧ (created = false →
       session_state s' = session_state s
       ∧ init_button_clicked api_url b64decode builtin_str backend
           uploaded_file paste_data s = (Ok (), s'))
    ∧ (session_state s' !! lit "vqa_session_id" ≠ session_state s !! lit "vqa_session_id"
       ∨ session_state s' !! lit "vqa_caption" ≠ session_state s !! lit "vqa_caption" →
       created = true
       ∧ ∃ files resp,
           sent s' = sent s ++ [probe; init_request api_url files]
           ∧ backend (sent s ++ [probe]) (init_request api_url files) = Ok resp
           ∧ status_code resp = 200%Z).
Proof.
  intros probe. unfold health_request, init_request in *.
  unfold init_button_clicked, init_vqa_session, post_init, check_backend_health.
  run. fold probe.
  cases.
  all: get_dict.
  all: eexists _, _; (split; [reflexivity |]); cbn [session_state page sent].
  all: split; [by intros ? | intros Hchange].
  all: try by destruct Hchange.
  all: split; [done |]; eexists _, _; rewrite <- (assoc_L (++)).
  all: split; [reflexivity |]; split; [eassumption | by apply Z.eqb_eq].
Qed.

(** C5: when the POST of [init_vqa_session] comes back with status 200 and
    a JSON object, the function returns [True] and the session state is
    the one before with ['vqa_session_id'] and ['vqa_caption'] set to the
    ['session_id'] and ['caption'] fields of that object ([None] for a
    field that is missing); no other entry is written. *)
Theorem C5_init_success_mirrors_response (uploaded_file : option uploaded_file)
    (paste_data : pystr) (s s' : ui) (r : res bool)
    (files : list (pystr * (pystr * pybytes * pystr))) (resp : response)
    (d : gmap pystr pyval) :
  init_vqa_session api_url b64decode builtin_str backend uploaded_file paste_data s
  = (r, s') →
  sent s' = sent s ++ [health_request api_url; init_request api_url files] →
  backend (sent s ++ [health_request api_url]) (init_request api_url files) = Ok resp →
  status_code resp = 200%Z →
  json resp = Ok (PDict d) →
  r = Ok true
  ∧ session_state s'
    = <[lit "vqa_caption" := default PNone (d !! lit "caption")]>
        (<[lit "vqa_session_id" := default PNone (d !! lit "session_id")]>
           (session_state s)).
Proof.
  unfold health_request, init_request.
  unfold init_vqa_session, post_init, check_backend_health. run.
  intros Hrun Hsent Hresp Hstatus Hjson.
  cases.
  all: rewrite <- ?(assoc_L (++)) in Hsent; simplify_list_eq.
  all: same_call; get_dict; status_test.
  all: cbn [Py.get] in *; by simplify_eq.
Qed.

(** The preview and the upload parse a pasted string by the same rule. *)
Lemma preview_bytes_pasted_bytes (paste_data : pystr) :
  preview_bytes b64decode paste_data = pasted_bytes b64decode paste_data.
Proof.
  unfold preview_bytes, pasted_bytes.
  destruct (startswith _ _); [| done].
  by destruct (Py.unpack2 _) as [[header b64]|e].
Qed.

(** C9: with [data] the pasted string trimmed, the image bytes are the
    base64 decoding of what follows the first comma of [data] when [data]
    starts with ["data:"] (with no comma there are no bytes: the
    unpacking raises), and the base64 decoding of [data] otherwise.
    The preview opens these bytes and, with no uploaded file, a POST of
    [init_vqa_session] carries these bytes: the same rule in both
    places. *)
Theorem C9_pasted_image_bytes (paste_data : pystr) :
  let data := strip paste_data in
  preview_bytes b64decode paste_data = pasted_bytes b64decode paste_data
  ∧ ((∃ rest, data = lit "data:" ++ rest) →
     ∀ header b64, data = header ++ 44 :: b64 → 44 ∉ header →
       pasted_bytes b64decode paste_data = b64decode b64)
  ∧ ((∃ rest, data = lit "data:" ++ rest) → 44 ∉ data →
     pasted_bytes b64decode paste_data
     = Raise (Exn (lit "ValueError")
                (lit "not enough values to unpack (expected 2, got 1)")))
  ∧ (¬ (∃ rest, data = lit "data:" ++ rest) →
     pasted_bytes b64decode paste_data = b64decode data)
  ∧ (∀ s r s' files,
       init_vqa_session api_url b64decode builtin_str backend None paste_data s
       = (r, s') →
       sent s' = sent s ++ [health_request api_url; init_request api_url files] →
       ∃ img_bytes,
         pasted_bytes b64decode paste_data = Ok img_bytes
         ∧ files = [(lit "image", (lit "pasted.png", img_bytes, lit "image/png"))])
  ∧ (∀ s img_bytes,
       paste_data ≠ [] →
       preview_bytes b64decode paste_data = Ok img_bytes →
       Image_open img_bytes = None →
       preview b64decode Image_open None paste_data s
       = (Ok (),
          UI (<[lit "uploaded_image" := PImage img_bytes]> (session_state s))
            (page s ++ [Widget Main image (PImage img_bytes)]) (sent s))).
Proof.
  intros data. split; [apply preview_bytes_pasted_bytes |].
  split; [| split; [| split; [| split]]].
  - intros Hprefix header b64 Hdata Hheader.
    apply startswith_spec in Hprefix.
    unfold pasted_bytes. fold data. rewrite Hprefix, Hdata.
    by rewrite split1_found.
  - intros Hprefix Hcomma.
    apply startswith_spec in Hprefix.
    unfold pasted_bytes. fold data. rewrite Hprefix.
    by rewrite split1_missing.
  - intros Hprefix. unfold pasted_bytes. fold data.
    destruct (startswith data (lit "data:")) eqn:Hstarts; [| done].
    apply startswith_spec in Hstarts. contradiction.
  - intros s r s' files.
    unfold health_request, init_request.
    unfold init_vqa_session, post_init, check_backend_health. run.
    intros Hrun Hsent.
    cases.
    all: rewrite <- ?(assoc_L (++)) in Hsent; simplify_list_eq.
    all: eauto.
  - intros s img_bytes Hpaste Hbytes Himage.
    unfold preview, open_image. run.
    destruct paste_data as [|c paste]; [done |].
    cbn [Py.truthy]. rewrite bool_decide_eq_false_2 by done. cbn [negb].
    by rewrite Hbytes, Himage.
Qed.

(** A run of [ask_question], flattened: one request, the spinner, and
    either the answer or an error on the page and [None]. *)
Lemma ask_question_run (session_id : pyval) (question : pystr) (s : ui) :
  ask_question api_url builtin_str backend session_id question s
  = let failed msg :=
      (Ok PNone,
       UI (session_state s)
         (page s ++ [ Widget Main spinner (PStr (lit "Thinking..."));
                      Widget Main error (PStr msg) ])
         (sent s ++ [ask_request api_url session_id question])) in
    match backend (sent s) (ask_request api_url session_id question) with
    | Raise e => failed (lit "Request error: " ++ exn_str e)
    | Ok resp =>
        if (status_code resp =? 200)%Z then
          match json resp with
          | Raise e => failed (lit "Request error: " ++ exn_str e)
          | Ok body =>
              match Py.get body (lit "answer") PNone with
              | Raise e => failed (lit "Request error: " ++ exn_str e)
              | Ok answer =>
                  (Ok answer,
                   UI (session_state s)
                     (page s ++ [Widget Main spinner (PStr (lit "Thinking..."))])
                     (sent s ++ [ask_request api_url session_id question]))
              end
          end
        else failed (lit "Ask failed: " ++ format builtin_str (error_detail resp))
    end.
Proof.
  unfold ask_request, ask_question. run.
  destruct (backend _ _) as [resp|e]; cbn [session_state page sent];
    [| by rewrite <- (assoc_L (++))].
  destruct (status_code resp =? 200)%Z.
  - destruct (json resp) as [body|e]; cbn [session_state page sent];
      [| by rewrite <- (assoc_L (++))].
    destruct (Py.get body _ _); cbn [session_state page sent];
      [done | by rewrite <- (assoc_L (++))].
  - rewrite response_detail_run. cbn [session_state page sent].
    by rewrite <- (assoc_L (++)).
Qed.

(** C4, as the code has it: [init_vqa_session] returns a boolean and
    [ask_question] a value, and neither raises. A failed
    [init_vqa_session] ends with a message on the page, an error or a
    warning. When the POST of either function comes back with a status
    other than 200, the error shown is ["Init failed: "] or
    ["Ask failed: "] followed by the detail of the response (its
    ['detail'] field, or the text of the body); when the POST raises, it
    is ["Request error: "] followed by the text of the exception. A
    health probe that does not come back with status 200 is reported as
    ["Backend is offline"], whatever the server answered, and a missing
    image by a warning. [ask_question] returns [None] after a failed
    POST, and the ['answer'] field of the body ([None] when missing)
    after a status 200 with a JSON object. *)
Theorem C4_failures_reported (uploaded_file : option uploaded_file)
    (paste_data : pystr) (session_id : pyval) (question : pystr) (s : ui) :
  (∃ (created : bool) (s' : ui),
     init_vqa_session api_url b64decode builtin_str backend uploaded_file paste_data s
     = (Ok created, s')
     ∧ (created = false →
        ∃ e msg, last (page s') = Some (Widget Main e (PStr msg))
                 ∧ (e = error ∨ e = warning))
     ∧ (∀ files resp,
          sent s' = sent s ++ [health_request api_url; init_request api_url files] →
          backend (sent s ++ [health_request api_url]) (init_request api_url files)
          = Ok resp →
          status_code resp ≠ 200%Z →
          created = false
          ∧ last (page s')
            = Some (Widget Main error
                      (PStr (lit "Init failed: "
                             ++ format builtin_str (error_detail resp)))))
     ∧ (∀ files e,
          sent s' = sent s ++ [health_request api_url; init_request api_url files] →
          backend (sent s ++ [health_request api_url]) (init_request api_url files)
          = Raise e →
          created = false
          ∧ last (page s')
            = Some (Widget Main error (PStr (lit "Request error: " ++ exn_str e))))
     ∧ (¬ (∃ h, backend (sent s) (health_request api_url) = Ok h
                ∧ status_code h = 200%Z) →
        created = false
        ∧ s' = UI (session_state s)
                 (page s
                  ++ [Widget Main error
                        (PStr ([10060]
                               ++ lit " Backend is offline. Make sure it's running on "
                               ++ api_url))])
                 (sent s ++ [health_request api_url]))
     ∧ ((∃ h, backend (sent s) (health_request api_url) = Ok h
              ∧ status_code h = 200%Z) →
        uploaded_file = None → paste_data = [] →
        created = false
        ∧ s' = UI (session_state s)
                 (page s
                  ++ [Widget Main warning
                        (PStr (lit "Please upload an image or paste image data first"))])
                 (sent s ++ [health_request api_url])))
  ∧ (∃ (answer : pyval) (s' : ui),
       ask_question api_url builtin_str backend session_id question s
       = (Ok answer, s')
       ∧ session_state s' = session_state s
       ∧ sent s' = sent s ++ [ask_request api_url session_id question]
       ∧ (∀ resp,
            backend (sent s) (ask_request api_url session_id question) = Ok resp →
            status_code resp ≠ 200%Z →
            answer = PNone
            ∧ page s'
              = page s
                ++ [ Widget Main spinner (PStr (lit "Thinking..."));
                     Widget Main error
                       (PStr (lit "Ask failed: "
                              ++ format builtin_str (error_detail resp))) ])
       ∧ (∀ e,
            backend (sent s) (ask_request api_url session_id question) = Raise e →
            answer = PNone
            ∧ page s'
              = page s
                ++ [ Widget Main spinner (PStr (lit "Thinking..."));
                     Widget Main error (PStr (lit "Request error: " ++ exn_str e)) ])
       ∧ (∀ resp d,
            backend (sent s) (ask_request api_url session_id question) = Ok resp →
            status_code resp = 200%Z →
            json resp = Ok (PDict d) →
            answer = default PNone (d !! lit "answer")
            ∧ page s' = page s ++ [Widget Main spinner (PStr (lit "Thinking..."))])).
Proof.
  split.
  - unfold health_request, init_request.
    unfold init_vqa_session, post_init, check_backend_health. run.
    cases.
    all: get_dict.
    all: eexists _, _; (split; [reflexivity |]); cbn [session_state page sent].
    all: rewrite ?last_snoc.
    all: split; [intros ?; by eauto |].
    all: split; [| split; [| split]].
    all: try (intros files r Hsent Hresp;
              rewrite <- ?(assoc_L (++)) in Hsent; simplify_list_eq;
              try intros Hstatus; same_call; status_test; done).
    all: try (intros Hprobe;
              first [ done
                    | exfalso; apply Hprobe; eexists; split; [reflexivity |];
                      by apply Z.eqb_eq, negb_false_iff ]).
    all: intros (h & Hh & Hstatus) Hfile Hpaste; simplify_eq; try done.
    all: try match goal with
             | H : negb (status_code ?r =? 200)%Z = true |- _ =>
                 rewrite Hstatus in H; discriminate H
             end.
    all: match goal with
         | H : Py.truthy (PStr []) = true |- _ => by vm_compute in H
         end.
  - rewrite ask_question_run.
    destruct (backend (sent s) _) as [resp|e];
      [destruct (status_code resp =? 200)%Z eqn:Hstatus;
       [destruct (json resp) as [body|e] eqn:Hjson;
        [destruct (Py.get body _ _) eqn:Hget |] |] |].
    all: eexists _, _; (split; [reflexivity |]); cbn [session_state page sent].
    all: try match goal with
             | H : (_ =? _)%Z = true |- _ => apply Z.eqb_eq in H
             | H : (_ =? _)%Z = false |- _ => apply Z.eqb_neq in H
             end.
    all: repeat split; try done; intros; simplify_eq; try done.
    all: same_call; cbn [Py.get] in *; by simplify_eq.
Qed.

(** C6, as the code has it: when the POST of [ask_question] comes back
    with a status other than 200, as it does for a session the server no
    longer knows, the click handler shows ["Ask failed: "] followed by the
    detail of the response and leaves [st.session_state] as it was; the
    session identifier stays, and the session status drawn afterwards
    still reads "Session Active" with the first characters of that
    identifier. *)
Theorem C6_failed_ask_keeps_session (question : pystr) (sid : pyval)
    (resp : response) (s : ui) :
  ¬ blank question →
  session_state s !! lit "vqa_session_id" = Some sid →
  backend (sent s) (ask_request api_url sid question) = Ok resp →
  status_code resp ≠ 200%Z →
  ∃ s',
    ask_button_clicked api_url builtin_str backend question s = (Ok (), s')
    ∧ page s'
      = page s
        ++ [ Widget Main spinner (PStr (lit "Thinking..."));
             Widget Main error
               (PStr (lit "Ask failed: " ++ format builtin_str (error_detail resp))) ]
    ∧ session_state s' = session_state s
    ∧ session_state s' !! lit "vqa_session_id" = Some sid
    ∧ ∀ token, sid = PStr token → token ≠ [] →
        session_status builtin_str s'
        = (Ok (),
           UI (session_state s')
             (page s'
              ++ [Widget Main success
                    (PStr ([9989] ++ lit " Session Active" ++ [10] ++ lit "ID: "
                           ++ take 8 token ++ lit "..."))])
             (sent s')).
Proof.
  intros Hquestion Hsid Hresp Hstatus.
  rewrite <- strip_nil_iff in Hquestion. apply Z.eqb_neq in Hstatus.
  eexists. unfold ask_button_clicked.
  cbn [Py.truthy]. rewrite bool_decide_eq_false_2 by done. cbn [negb].
  unfold mbind at 1, M_bind at 1, state_getitem. rewrite Hsid.
  unfold mbind, M_bind. rewrite ask_question_run, Hresp, Hstatus.
  cbv zeta. cbn [Py.truthy mret M_ret].
  split; [reflexivity |]. cbn [session_state page sent].
  repeat split; try done.
  intros token -> Htoken. unfold session_status. run. rewrite Hsid.
  cbn [from_option id Py.truthy]. rewrite bool_decide_eq_false_2 by done.
  cbn [negb session_state page sent]. rewrite ?Hsid. reflexivity.
Qed.

(** C2: a question that is empty or white space only is refused. In the
    client the click handler shows the error ["Question cannot be empty"]
    and does nothing else: no request is sent and [st.session_state] is
    as before. In the store, [ask] on a live session fails with
    [InvalidInput], calls the inference service for nothing and leaves the
    table as it was, so the history of the session has the length it
    had. *)
Theorem C2_blank_question_rejected (question : pystr) :
  blank question →
  (∀ s : ui,
     ask_button_clicked api_url builtin_str backend question s
     = (Ok (),
        UI (session_state s)
          (page s ++ [Widget Main error (PStr (lit "Question cannot be empty"))])
          (sent s)))
  ∧ (∀ answer now session_id (st : SessionStore.store) (session : SessionStore.Session),
       SessionStore.table st !! session_id = Some session →
       ∃ st',
         SessionStore.ask answer now session_id question st
         = (inl SessionStore.InvalidInput, st')
         ∧ SessionStore.calls st' = SessionStore.calls st
         ∧ SessionStore.table st' = SessionStore.table st
         ∧ ∃ session',
             SessionStore.table st' !! session_id = Some session'
             ∧ length (SessionStore.history session')
               = length (SessionStore.history session)).
Proof.
  intros Hblank. apply strip_blank in Hblank. split.
  - intros s. unfold ask_button_clicked. rewrite Hblank. reflexivity.
  - intros answer now session_id st session Hsession.
    exists st. unfold SessionStore.ask. rewrite Hsession, Hblank.
    repeat split; eauto.
Qed.

(** ** More on the client *)

(** A run of [post_init], flattened. *)
Lemma post_init_run (files : list (pystr * (pystr * pybytes * pystr))) (s : ui) :
  post_init api_url builtin_str backend files s
  = let s1 :=
      UI (session_state s)
        (page s ++ [Widget Main spinner
                      (PStr (lit "Processing image and generating caption..."))])
        (sent s ++ [init_request api_url files]) in
    match backend (sent s) (init_request api_url files) with
    | Raise e => (Raise e, s1)
    | Ok resp =>
        if (status_code resp =? 200)%Z then
          match json resp with
          | Raise e => (Raise e, s1)
          | Ok (PDict d) =>
              (Ok true,
               UI (<[lit "vqa_caption" := default PNone (d !! lit "caption")]>
                     (<[lit "vqa_session_id" := default PNone (d !! lit "session_id")]>
                        (session_state s)))
                 (page s1 ++ [Widget Main success
                                (PStr ([9989] ++ lit " VQA session created successfully!"))])
                 (sent s1))
          | Ok data =>
              (Raise (Exn (lit "AttributeError")
                        (lit "'" ++ Py.type_name data
                         ++ lit "' object has no attribute 'get'")), s1)
          end
        else
          (Ok false,
           UI (session_state s)
             (page s1 ++ [Widget Main error
                            (PStr (lit "Init failed: "
                                   ++ format builtin_str (error_detail resp)))])
             (sent s1))
    end.
Proof.
  unfold init_request, post_init. run.
  destruct (backend _ _) as [resp|e]; cbn [session_state page sent]; [| done].
  destruct (status_code resp =? 200)%Z.
  - destruct (json resp) as [data|e]; cbn [session_state page sent]; [| done].
    by destruct data.
  - by rewrite response_detail_run.
Qed.

(** A run of [init_vqa_session], flattened: the probe, then the choice of
    the image, then [post_init]. *)
Lemma init_vqa_session_run (uploaded_file : option uploaded_file)
    (paste_data : pystr) (s : ui) :
  init_vqa_session api_url b64decode builtin_str backend uploaded_file paste_data s
  = let s1 := UI (session_state s) (page s) (sent s ++ [health_request api_url]) in
    let said e body :=
      (Ok false,
       UI (session_state s) (page s ++ [Widget Main e (PStr body)]) (sent s1)) in
    match backend (sent s) (health_request api_url) with
    | Ok probe =>
        if (status_code probe =? 200)%Z then
          match uploaded_file, paste_data with
          | Some f, _ =>
              caught (post_init api_url builtin_str backend
                        [(lit "image", (name f, getvalue f, type f))] s1)
          | None, [] =>
              said warning (lit "Please upload an image or paste image data first")
          | None, _ :: _ =>
              match pasted_bytes b64decode paste_data with
              | Ok img_bytes =>
                  caught (post_init api_url builtin_str backend
                            [(lit "image",
                              (lit "pasted.png", img_bytes, lit "image/png"))] s1)
              | Raise e => said error (lit "Request error: " ++ exn_str e)
              end
          end
        else
          said error ([10060] ++ lit " Backend is offline. Make sure it's running on "
                      ++ api_url)
    | Raise _ =>
        said error ([10060] ++ lit " Backend is offline. Make sure it's running on "
                    ++ api_url)
    end.
Proof.
  unfold init_vqa_session, try_except at 1, mbind at 1, M_bind at 1.
  rewrite check_backend_health_run. unfold health_request, caught.
  destruct (backend (sent s) _) as [probe|e]; [| by run].
  destruct (status_code probe =? 200)%Z; [| by run].
  cbn [negb]. destruct uploaded_file as [f|].
  - by destruct (post_init _ _ _ _ _) as [[] ?].
  - destruct paste_data as [|c paste]; [by run |].
    cbn [Py.truthy]. rewrite bool_decide_eq_false_2 by done. cbn [negb].
    unfold mbind, M_bind, lift.
    destruct (pasted_bytes b64decode (c :: paste)) as [img_bytes|e]; [| by run].
    by destruct (post_init _ _ _ _ _) as [[] ?].
Qed.

(** Case analysis on a run of [init_vqa_session]. *)
Ltac init_cases :=
  rewrite init_vqa_session_run; cbv zeta;
  repeat first [ rewrite post_init_run; cbv zeta | case_match ];
  unfold caught in *; simplify_eq; cbn [session_state page sent] in *.

(** What a [True] of [init_vqa_session] tells. *)
Lemma init_success_inv (uploaded_file : option uploaded_file)
    (paste_data : pystr) (s s' : ui) :
  init_vqa_session api_url b64decode builtin_str backend uploaded_file paste_data s
  = (Ok true, s') →
  ∃ files resp d,
    backend (sent s ++ [health_request api_url]) (init_request api_url files) = Ok resp
    ∧ status_code resp = 200%Z
    ∧ json resp = Ok (PDict d)
    ∧ s' = UI (<[lit "vqa_caption" := default PNone (d !! lit "caption")]>
                 (<[lit "vqa_session_id" := default PNone (d !! lit "session_id")]>
                    (session_state s)))
             (page s
              ++ [ Widget Main spinner
                     (PStr (lit "Processing image and generating caption..."));
                   Widget Main success
                     (PStr ([9989] ++ lit " VQA session created successfully!")) ])
             (sent s ++ [health_request api_url; init_request api_url files]).
Proof.
  init_cases; intros Hrun; simplify_eq.
  all: eexists _, _, _; rewrite <- !(assoc_L (++)).
  all: split; [eassumption |]; split; [by apply Z.eqb_eq |]; done.
Qed.

(** [init_vqa_session] does not raise. *)
Lemma init_vqa_session_returns (uploaded_file : option uploaded_file)
    (paste_data : pystr) (s : ui) :
  ∃ (created : bool) (s' : ui),
    init_vqa_session api_url b64decode builtin_str backend uploaded_file paste_data s
    = (Ok created, s').
Proof. init_cases; eauto. Qed.

(** X4: Lines 44 to 75: [init_vqa_session] sends the health probe and, after
    it, at most one request, the POST to [/api/vqa/init] with a single
    part named ['image']; it sends that POST only when the probe came
    back with status 200, and never to a backend whose probe failed. *)
Theorem init_sends_probe_then_post (uploaded_file : option uploaded_file)
    (paste_data : pystr) (s : ui) :
  let s' := (init_vqa_session api_url b64decode builtin_str backend
               uploaded_file paste_data s).2 in
  sent s' = sent s ++ [health_request api_url]
  ∨ ∃ image_name img_bytes image_type,
      sent s'
      = sent s ++ [ health_request api_url;
                    init_request api_url
                      [(lit "image", (image_name, img_bytes, image_type))] ]
      ∧ ∃ probe, backend (sent s) (health_request api_url) = Ok probe
                 ∧ status_code probe = 200%Z.
Proof.
  init_cases; cbn [snd sent]; rewrite <- ?(assoc_L (++)).
  all: first [ by left | right; eexists _, _, _; split; [reflexivity |] ].
  all: eexists; split; [reflexivity | by apply Z.eqb_eq].
Qed.

(** X5: Lines 49 to 56: an uploaded file wins over pasted data. After a
    healthy probe the POST carries the name, the bytes and the type of
    the file, and the run is the one with nothing pasted: the pasted
    string is neither decoded nor sent. *)
Theorem uploaded_file_sent_as_is (f : uploaded_file) (paste_data : pystr)
    (s : ui) (probe : response) :
  backend (sent s) (health_request api_url) = Ok probe →
  status_code probe = 200%Z →
  init_vqa_session api_url b64decode builtin_str backend (Some f) paste_data s
  = init_vqa_session api_url b64decode builtin_str backend (Some f) [] s
  ∧ sent (init_vqa_session api_url b64decode builtin_str backend
            (Some f) paste_data s).2
    = sent s ++ [ health_request api_url;
                  init_request api_url
                    [(lit "image", (name f, getvalue f, type f))] ].
Proof.
  intros Hprobe Hstatus. split; [by rewrite !init_vqa_session_run |].
  rewrite init_vqa_session_run. cbv zeta. rewrite Hprobe, Hstatus.
  change (200 =? 200)%Z with true. cbv iota. rewrite post_init_run. cbv zeta.
  repeat case_match; unfold caught; cbn [snd sent]; by rewrite <- (assoc_L (++)).
Qed.

(** X6: Lines 77 to 82: [init_vqa_session] returns [True] exactly when the
    POST it sent came back with status 200 and a JSON object; the page
    then gains the spinner and the success message and nothing else. *)
Theorem init_true_iff (uploaded_file : option uploaded_file)
    (paste_data : pystr) (s : ui) :
  let run := init_vqa_session api_url b64decode builtin_str backend
               uploaded_file paste_data s in
  (run.1 = Ok true ↔
   ∃ files resp d,
     sent run.2 = sent s ++ [health_request api_url; init_request api_url files]
     ∧ backend (sent s ++ [health_request api_url]) (init_request api_url files)
       = Ok resp
     ∧ status_code resp = 200%Z
     ∧ json resp = Ok (PDict d))
  ∧ (run.1 = Ok true →
     page run.2
     = page s
       ++ [ Widget Main spinner
              (PStr (lit "Processing image and generating caption..."));
            Widget Main success
              (PStr ([9989] ++ lit " VQA session created successfully!")) ]).
Proof.
  intros run. subst run.
  destruct (init_vqa_session_returns uploaded_file paste_data s)
    as (created & s' & Hrun).
  rewrite Hrun. cbn [fst snd]. destruct created.
  - destruct (init_success_inv _ _ _ _ Hrun) as (files & resp & d & ? & ? & ? & ->).
    cbn [page sent]. split; [| done]. split; [| done].
    intros _. by exists files, resp, d.
  - split; [| done]. split; [done |].
    intros (files & resp & d & Hsent & Hresp & Hstatus & Hjson). exfalso.
    revert Hrun. init_cases; intros Hrun; simplify_eq; cbn [sent] in *.
    all: rewrite <- ?(assoc_L (++)) in Hsent; simplify_list_eq.
    all: same_call; status_test; by simplify_eq.
Qed.

(** X7: Lines 65 to 67: the warning that asks for an image is what the page
    gains exactly when the probe was healthy, no file was uploaded and
    the paste field is the empty string; a paste field with white space
    only does not count as empty. *)
Theorem upload_warning_iff (uploaded_file : option uploaded_file)
    (paste_data : pystr) (s : ui) :
  let s' := (init_vqa_session api_url b64decode builtin_str backend
               uploaded_file paste_data s).2 in
  page s'
  = page s
    ++ [Widget Main warning
          (PStr (lit "Please upload an image or paste image data first"))]
  ↔ (∃ probe, backend (sent s) (health_request api_url) = Ok probe
              ∧ status_code probe = 200%Z)
    ∧ uploaded_file = None ∧ paste_data = [].
Proof.
  init_cases; cbn [snd page]; rewrite <- ?(assoc_L (++)).
  all: split;
    [ intros Hpage; simplify_list_eq
    | intros ((probe & Hprobe & Hstatus) & Hfile & Hpaste); simplify_eq ].
  all: try done.
  all: try (rewrite Hstatus in *; discriminate).
  all: split; [| done]; eexists; split; [reflexivity | by apply Z.eqb_eq].
Qed.

(** X8: Lines 58 to 63 and 152 to 157: white space around pasted data is
    ignored. The bytes of the image are those of the data without it, in
    the preview and in the upload, and a run of [init_vqa_session] on
    non-empty pasted data is the run on the data with white space put
    around it. *)
Theorem pasted_whitespace_ignored (pre paste_data post : pystr) :
  blank pre → blank post →
  pasted_bytes b64decode (pre ++ paste_data ++ post)
  = pasted_bytes b64decode paste_data
  ∧ preview_bytes b64decode (pre ++ paste_data ++ post)
    = preview_bytes b64decode paste_data
  ∧ (paste_data ≠ [] →
     ∀ s,
       init_vqa_session api_url b64decode builtin_str backend None
         (pre ++ paste_data ++ post) s
       = init_vqa_session api_url b64decode builtin_str backend None paste_data s).
Proof.
  intros Hpre Hpost.
  assert (Hbytes : pasted_bytes b64decode (pre ++ paste_data ++ post)
                   = pasted_bytes b64decode paste_data).
  { unfold pasted_bytes. by rewrite strip_surrounded. }
  split; [done |]. split; [by rewrite !preview_bytes_pasted_bytes |].
  intros Hpaste s. rewrite !init_vqa_session_run, Hbytes. cbv zeta.
  destruct paste_data as [|c paste]; [done |].
  destruct (pre ++ (c :: paste) ++ post) as [|c' padded] eqn:Hpadded; [| done].
  apply app_eq_nil in Hpadded as [_ Hpadded]. discriminate.
Qed.

(** X9: Lines 169 to 171: the click on "Init VQA" ends the run with a rerun
    exactly when [init_vqa_session] returned [True], and the rerun then
    starts from the state [init_vqa_session] left. *)
Theorem init_button_reruns_on_success (uploaded_file : option uploaded_file)
    (paste_data : pystr) (s s' : ui) :
  init_vqa_session api_url b64decode builtin_str backend uploaded_file paste_data s
  = (Ok true, s')
  ↔ init_button_clicked api_url b64decode builtin_str backend
      uploaded_file paste_data s
    = (Raise (Exn (lit "RerunException") []), s').
Proof.
  unfold init_button_clicked, mbind, M_bind.
  destruct (init_vqa_session_returns uploaded_file paste_data s)
    as (created & s1 & ->).
  destruct created; unfold st_rerun, lift, mret, M_ret;
    split; intros H; by simplify_eq.
Qed.

(** A run of [session_status], flattened. *)
Lemma session_status_run (s : ui) :
  session_status builtin_str s
  = let sid := default PNone (session_state s !! lit "vqa_session_id") in
    if Py.truthy sid then
      match Py.slice_to 8 sid with
      | Ok prefix =>
          (Ok (),
           UI (session_state s)
             (page s
              ++ [Widget Main success
                    (PStr ([9989] ++ lit " Session Active" ++ [10] ++ lit "ID: "
                           ++ format builtin_str prefix ++ lit "..."))])
             (sent s))
      | Raise e => (Raise e, s)
      end
    else
      (Ok (),
       UI (session_state s)
         (page s ++ [Widget Main info (PStr ([10060] ++ lit " No active session"))])
         (sent s)).
Proof.
  unfold session_status. run. cbv zeta.
  destruct (session_state s !! lit "vqa_session_id") as [sid|] eqn:Hsid;
    cbn [from_option id]; [| done].
  destruct (Py.truthy sid); [| done].
  cbn [session_state page sent]. rewrite Hsid.
  by destruct (Py.slice_to 8 sid).
Qed.

(** A run of [vqa_section], flattened. *)
Lemma vqa_section_run (ask_button : bool) (question : pystr) (s : ui) :
  vqa_section api_url builtin_str backend ask_button question s
  = let sid := default PNone (session_state s !! lit "vqa_session_id") in
    let caption := default PNone (session_state s !! lit "vqa_caption") in
    if Py.truthy sid then
      let s1 :=
        UI (session_state s)
          (page s
           ++ [ Widget Main markdown (PStr (lit "---"));
                Widget Main heading
                  (PStr ([50; 65039; 8419] ++ lit " Interact with Image")) ]
           ++ (if Py.truthy caption
               then [ Widget Main subheader
                        (PStr ([128221] ++ lit " Initial Caption"));
                      Widget Main info caption ]
               else [])
           ++ [ Widget Main subheader (PStr ([10067] ++ lit " Ask Questions"));
                Widget Main write (PStr []) ])
          (sent s) in
      if ask_button
      then ask_button_clicked api_url builtin_str backend question s1
      else (Ok (), s1)
    else
      (Ok (),
       UI (session_state s)
         (page s
          ++ [Widget Main info
                (PStr ([128070]
                       ++ lit " Start by uploading an image and clicking 'Init VQA'"))])
         (sent s)).
Proof.
  unfold vqa_section. run. cbv zeta.
  destruct (Py.truthy (default PNone (session_state s !! lit "vqa_session_id")));
    [| done].
  destruct (session_state s !! lit "vqa_caption") as [caption|] eqn:Hcaption;
    cbn [from_option id].
  - destruct (Py.truthy caption); cbn [session_state page sent];
      rewrite ?Hcaption; cbn [session_state page sent];
      rewrite <- !(assoc_L (++)); by destruct ask_button.
  - cbn [Py.truthy session_state page sent].
    rewrite <- !(assoc_L (++)). by destruct ask_button.
Qed.

(** X10: Lines 173 to 176: the session status reads "No active session"
    whenever the stored identifier is missing or falsy ([None], the empty
    string, zero); for a non-empty string it reads "Session Active" with
    at most the first eight characters of the identifier; for a number
    that is not zero the slice raises a [TypeError] that nothing catches,
    and nothing is drawn. *)
Theorem session_status_cases (s : ui) :
  let sid := default PNone (session_state s !! lit "vqa_session_id") in
  let say e body :=
    UI (session_state s) (page s ++ [Widget Main e (PStr body)]) (sent s) in
  (Py.truthy sid = false →
   session_status builtin_str s
   = (Ok (), say info ([10060] ++ lit " No active session")))
  ∧ (∀ token, sid = PStr token → token ≠ [] →
       session_status builtin_str s
       = (Ok (),
          say success ([9989] ++ lit " Session Active" ++ [10] ++ lit "ID: "
                       ++ take 8 token ++ lit "..."))
       ∧ (length (take 8 token) ≤ 8)%nat
       ∧ ((length token ≤ 8)%nat → take 8 token = token))
  ∧ (∀ z, sid = PInt z → z ≠ 0%Z →
       session_status builtin_str s
       = (Raise (Exn (lit "TypeError") (lit "'int' object is not subscriptable")), s)).
Proof.
  intros sid say. rewrite session_status_run. cbv zeta. fold sid.
  split; [by intros -> |]. split.
  - intros token -> Htoken. cbn [Py.truthy Py.slice_to format].
    rewrite bool_decide_eq_false_2 by done. cbn [negb].
    split; [done |]. split; [rewrite length_take; lia |].
    intros Hshort. by apply take_ge.
  - intros z -> Hz. cbn [Py.truthy Py.slice_to].
    apply Z.eqb_neq in Hz. rewrite Hz. reflexivity.
Qed.

(** X11: Lines 219 to 230: the backend status of the sidebar never raises and
    never writes [st.session_state]. After a probe that did not come back
    with status 200 it has sent that one request and shows "Offline" with
    the URL of the backend. After a healthy probe it has sent a second
    request, and when the answer to that one has no JSON object the page
    shows "Healthy" and nothing else: the failure to read the metadata is
    silent. *)
Theorem sidebar_status_never_raises (s : ui) :
  let healthy :=
    ∃ probe, backend (sent s) (health_request api_url) = Ok probe
             ∧ status_code probe = 200%Z in
  ∃ s',
    sidebar_status api_url builtin_str backend s = (Ok (), s')
    ∧ session_state s' = session_state s
    ∧ (healthy →
       sent s' = sent s ++ [health_request api_url; health_request api_url]
       ∧ ((∀ r d, backend (sent s ++ [health_request api_url]) (health_request api_url)
                  = Ok r → json r ≠ Ok (PDict d)) →
          page s'
          = page s ++ [Widget Sidebar success (PStr ([9989] ++ lit " Healthy"))]))
    ∧ (¬ healthy →
       sent s' = sent s ++ [health_request api_url]
       ∧ page s'
         = page s
           ++ [ Widget Sidebar error (PStr ([10060] ++ lit " Offline"));
                Widget Sidebar warning (PStr (lit "Backend URL: " ++ api_url)) ]).
Proof.
  intros healthy. subst healthy. unfold sidebar_status, health_request.
  unfold mbind at 1, M_bind at 1. rewrite check_backend_health_run.
  destruct (backend (sent s) _) as [probe|e] eqn:Hprobe;
    [destruct (status_code probe =? 200)%Z eqn:Hstatus |].
  - run.
    destruct (backend (sent s ++ _) _) as [r|e] eqn:Hr;
      [destruct (json r) as [[]|e] eqn:Hjson |].
    all: cbn [Py.get session_state page sent].
    all: eexists; split; [reflexivity |]; cbn [session_state page sent].
    all: split; [done |]; rewrite <- ?(assoc_L (++)).
    all: split;
      [ intros _; split; [done |]; intros Hnone
      | intros Hnot; exfalso; apply Hnot; eexists; split;
        [reflexivity | by apply Z.eqb_eq] ].
    all: try done.
    exfalso. eapply Hnone; [reflexivity | eassumption].
  - run. eexists. split; [reflexivity |]. cbn [session_state page sent].
    split; [done |]. rewrite <- ?(assoc_L (++)). split; [| done].
    intros (? & [= <-] & Hok). rewrite Hok in Hstatus. discriminate.
  - run. eexists. split; [reflexivity |]. cbn [session_state page sent].
    split; [done |]. rewrite <- ?(assoc_L (++)). split; [| done].
    by intros (? & ? & _).
Qed.

(** X12: Lines 203 to 210: a click on "Ask" never writes [st.session_state].
    With a blank question it sends nothing; otherwise it sends exactly
    one request, the POST to [/api/vqa/ask] with the stored session
    identifier and the question as it was typed, white space around it
    included, and it returns whatever the backend does. Only a missing
    ['vqa_session_id'] entry makes it raise, before anything is sent;
    under the test of line 179, which shows the button only for a truthy
    identifier, it does not raise. *)
Theorem ask_click_frame (question : pystr) (s : ui) :
  let run := ask_button_clicked api_url builtin_str backend question s in
  session_state run.2 = session_state s
  ∧ (blank question → sent run.2 = sent s)
  ∧ (∀ sid, ¬ blank question →
       session_state s !! lit "vqa_session_id" = Some sid →
       run.1 = Ok ()
       ∧ sent run.2 = sent s ++ [ask_request api_url sid question])
  ∧ (¬ blank question →
     session_state s !! lit "vqa_session_id" = None →
     run = (Raise (Exn (lit "KeyError") (lit "'vqa_session_id'")), s))
  ∧ (Py.truthy (default PNone (session_state s !! lit "vqa_session_id")) = true →
     run.1 = Ok ()).
Proof.
  intros run. subst run. unfold ask_button_clicked.
  destruct (strip question) as [|c q] eqn:Hstrip.
  { apply strip_nil_iff in Hstrip as Hblank.
    cbn [Py.truthy]. rewrite bool_decide_eq_true_2 by done. cbn [negb]. run.
    split; [done |]. split; [done |].
    split; [by intros sid H; destruct H |].
    split; [by intros H; destruct H | done]. }
  assert (Hquestion : ¬ blank question).
  { rewrite <- strip_nil_iff, Hstrip. done. }
  cbn [Py.truthy]. rewrite bool_decide_eq_false_2 by done. cbn [negb]. run.
  repeat first [ rewrite ask_question_run; cbv zeta | case_match ].
  all: simplify_eq; cbn [fst snd session_state page sent from_option].
  all: split; [done |]; split; [by intros ? |].
  all: split; [intros ? _ ?; by simplify_eq |].
  all: split; [intros _ ?; by simplify_eq | by intros ?].
Qed.

(** X13: Lines 207 to 210: after a status 200 with a JSON object, a truthy
    ['answer'] is shown as it is under the heading "Answer"; an answer
    that is missing, [None] or empty is shown nowhere, and no error and
    no warning takes its place. *)
Theorem ask_click_answer_shown (question : pystr) (sid : pyval)
    (resp : response) (d : gmap pystr pyval) (s : ui) :
  ¬ blank question →
  session_state s !! lit "vqa_session_id" = Some sid →
  backend (sent s) (ask_request api_url sid question) = Ok resp →
  status_code resp = 200%Z →
  json resp = Ok (PDict d) →
  let answer := default PNone (d !! lit "answer") in
  let s' := (ask_button_clicked api_url builtin_str backend question s).2 in
  (Py.truthy answer = true →
   page s'
   = page s
     ++ [ Widget Main spinner (PStr (lit "Thinking..."));
          Widget Main subheader (PStr ([128172] ++ lit " Answer"));
          Widget Main success answer ])
  ∧ (Py.truthy answer = false →
     page s' = page s ++ [Widget Main spinner (PStr (lit "Thinking..."))]).
Proof.
  intros Hquestion Hsid Hresp Hstatus Hjson answer s'.
  rewrite <- strip_nil_iff in Hquestion.
  assert (Hrun : ask_button_clicked api_url builtin_str backend question s
                 = (Ok (),
                    UI (session_state s)
                      (page s
                       ++ Widget Main spinner (PStr (lit "Thinking..."))
                          :: (if Py.truthy answer
                              then [ Widget Main subheader
                                       (PStr ([128172] ++ lit " Answer"));
                                     Widget Main success answer ]
                              else []))
                      (sent s ++ [ask_request api_url sid question]))).
  { unfold ask_button_clicked.
    cbn [Py.truthy]. rewrite bool_decide_eq_false_2 by done. cbn [negb].
    unfold mbind at 1, M_bind at 1, state_getitem. rewrite Hsid.
    unfold mbind, M_bind. rewrite ask_question_run, Hresp, Hstatus, Hjson.
    change (200 =? 200)%Z with true. cbv zeta iota. cbn [Py.get]. fold answer.
    destruct (Py.truthy answer); run; [| done].
    by rewrite <- !(assoc_L (++)). }
  subst s'. rewrite Hrun. cbn [snd page]. by split; intros ->.
Qed.

(** X14: Lines 146 to 164: the preview sends no request. With pasted data it
    never raises: data that does not decode, or bytes that are no image,
    give the one error "Failed to parse image", and [st.session_state] is
    as before. With an uploaded file the image is opened outside any
    [try]: a file that is no image raises before anything is stored or
    drawn; a file that is one is stored under ['uploaded_image'] and
    drawn, whatever was pasted. *)
Theorem preview_cases (uploaded_file : option uploaded_file)
    (paste_data : pystr) (s : ui) :
  let run := preview b64decode Image_open uploaded_file paste_data s in
  sent run.2 = sent s
  ∧ (uploaded_file = None →
     run.1 = Ok ()
     ∧ (paste_data = [] → run.2 = s)
     ∧ (paste_data ≠ [] →
        (∃ e, preview_bytes b64decode paste_data = Raise e)
        ∨ (∃ img_bytes e, preview_bytes b64decode paste_data = Ok img_bytes
                          ∧ Image_open img_bytes = Some e) →
        run.2
        = UI (session_state s)
            (page s
             ++ [Widget Main error
                   (PStr (lit "Failed to parse image. Check your data URL or base64."))])
            (sent s)))
  ∧ (∀ f, uploaded_file = Some f →
       (∀ e, Image_open (getvalue f) = Some e → run = (Raise e, s))
       ∧ (Image_open (getvalue f) = None →
          run
          = (Ok (),
             UI (<[lit "uploaded_image" := PFile f]> (session_state s))
               (page s ++ [Widget Main image (PImage (getvalue f))]) (sent s)))).
Proof.
  intros run. subst run. unfold preview, open_image. run.
  destruct uploaded_file as [f|].
  - destruct (Image_open (getvalue f)) as [e|] eqn:Hopen;
      cbn [session_state page sent fst snd].
    + repeat split; try done; simplify_eq; intros; by simplify_eq.
    + repeat split; try done; simplify_eq; intros; by simplify_eq.
  - destruct paste_data as [|c paste].
    { cbn [Py.truthy]. rewrite bool_decide_eq_true_2 by done. cbn [negb].
      destruct s. repeat split; done. }
    cbn [Py.truthy]. rewrite bool_decide_eq_false_2 by done. cbn [negb].
    destruct (preview_bytes b64decode (c :: paste)) as [img_bytes|e] eqn:Hbytes;
      [destruct (Image_open img_bytes) as [e|] eqn:Hopen |].
    all: cbn [session_state page sent fst snd].
    all: repeat split; try done.
    all: intros _ [(? & ?) | (? & ? & ? & ?)]; by simplify_eq.
Qed.

Lemma vqa_caption_not_vqa_session_id : lit "vqa_caption" ≠ lit "vqa_session_id".
Proof. intros H. by vm_compute in H. Qed.

(** What a click on "Ask" with a question that is not blank sends. *)
Lemma ask_button_clicked_sends (question : pystr) (sid : pyval) (s : ui) :
  ¬ blank question →
  session_state s !! lit "vqa_session_id" = Some sid →
  ∃ s',
    ask_button_clicked api_url builtin_str backend question s = (Ok (), s')
    ∧ session_state s' = session_state s
    ∧ sent s' = sent s ++ [ask_request api_url sid question].
Proof.
  intros Hquestion Hsid. rewrite <- strip_nil_iff in Hquestion.
  unfold ask_button_clicked.
  cbn [Py.truthy]. rewrite bool_decide_eq_false_2 by done. cbn [negb].
  unfold mbind at 1, M_bind at 1, state_getitem. rewrite Hsid.
  unfold mbind, M_bind. rewrite ask_question_run. cbv zeta.
  repeat case_match; run; simplify_eq.
  all: eexists; (split; [reflexivity |]); cbn [session_state sent]; by split.
Qed.

(** X15: Lines 77 to 82 with lines 203 to 210: the question that follows a
    successful [init_vqa_session] goes out with the ['session_id'] of the
    response to the POST of that call, whatever was drawn in between, and
    the stored session is the same after the question. *)
Theorem ask_after_init_uses_server_id (uploaded_file : option uploaded_file)
    (paste_data question : pystr) (s s1 : ui) :
  init_vqa_session api_url b64decode builtin_str backend uploaded_file paste_data s
  = (Ok true, s1) →
  ¬ blank question →
  ∃ files resp d,
    backend (sent s ++ [health_request api_url]) (init_request api_url files) = Ok resp
    ∧ json resp = Ok (PDict d)
    ∧ ∀ shown,
        let s2 := (ask_button_clicked api_url builtin_str backend question
                     (UI (session_state s1) shown (sent s1))).2 in
        sent s2
        = sent s1
          ++ [ask_request api_url (default PNone (d !! lit "session_id")) question]
        ∧ session_state s2 = session_state s1.
Proof.
  intros Hinit Hquestion.
  destruct (init_success_inv _ _ _ _ Hinit)
    as (files & resp & d & Hresp & _ & Hjson & ->).
  exists files, resp, d. split; [done |]. split; [done |].
  intros shown. cbn [session_state sent].
  edestruct (ask_button_clicked_sends question) as (s2 & -> & Hstate & Hsent);
    [done | | by cbn [snd] ].
  cbn [session_state].
  rewrite (lookup_insert_ne _ _ _ _ vqa_caption_not_vqa_session_id).
  apply lookup_insert_eq.
Qed.

(** X16: Lines 77 to 82 with lines 173 to 213: what the page shows of the
    session after a successful [init_vqa_session] is what the server
    returned. A ['session_id'] that is a non-empty string gives "Session
    Active" with its first eight characters; with a truthy ['session_id']
    the section "Interact with Image" is drawn, with a truthy ['caption']
    as it is under "Initial Caption" and with no caption otherwise. A
    response without a ['session_id'] leaves the status at "No active
    session" although the call reported a success, and the section is
    then the hint alone: no caption, not even one the server sent, and no
    question goes out. *)
Theorem session_shown_after_init (uploaded_file : option uploaded_file)
    (paste_data question : pystr) (s s1 : ui) :
  init_vqa_session api_url b64decode builtin_str backend uploaded_file paste_data s
  = (Ok true, s1) →
  ∃ files resp d,
    backend (sent s ++ [health_request api_url]) (init_request api_url files) = Ok resp
    ∧ json resp = Ok (PDict d)
    ∧ ∀ shown,
        let sid := default PNone (d !! lit "session_id") in
        let caption := default PNone (d !! lit "caption") in
        let s2 := UI (session_state s1) shown (sent s1) in
        let drawn ws := UI (session_state s1) (shown ++ ws) (sent s1) in
        let top :=
          [ Widget Main markdown (PStr (lit "---"));
            Widget Main heading
              (PStr ([50; 65039; 8419] ++ lit " Interact with Image")) ] in
        let prompt :=
          [ Widget Main subheader (PStr ([10067] ++ lit " Ask Questions"));
            Widget Main write (PStr []) ] in
        (∀ token, sid = PStr token → token ≠ [] →
           session_status builtin_str s2
           = (Ok (),
              drawn [Widget Main success
                       (PStr ([9989] ++ lit " Session Active" ++ [10] ++ lit "ID: "
                              ++ take 8 token ++ lit "..."))]))
        ∧ (Py.truthy sid = true → Py.truthy caption = true →
           vqa_section api_url builtin_str backend false question s2
           = (Ok (),
              drawn (top
                     ++ [ Widget Main subheader
                            (PStr ([128221] ++ lit " Initial Caption"));
                          Widget Main info caption ]
                     ++ prompt)))
        ∧ (Py.truthy sid = true → Py.truthy caption = false →
           vqa_section api_url builtin_str backend false question s2
           = (Ok (), drawn (top ++ prompt)))
        ∧ (Py.truthy sid = false →
           session_status builtin_str s2
           = (Ok (),
              drawn [Widget Main info (PStr ([10060] ++ lit " No active session"))])
           ∧ ∀ ask_button,
               vqa_section api_url builtin_str backend ask_button question s2
               = (Ok (),
                  drawn [Widget Main info
                           (PStr ([128070]
                                  ++ lit " Start by uploading an image and clicking 'Init VQA'"))])).
Proof.
  intros Hinit.
  destruct (init_success_inv _ _ _ _ Hinit)
    as (files & resp & d & Hresp & _ & Hjson & ->).
  exists files, resp, d. split; [done |]. split; [done |].
  intros shown sid caption s2 drawn top prompt.
  subst s2 drawn top prompt.
  assert (Hsid : ∀ pg snt,
            session_state
              (UI (<[lit "vqa_caption" := caption]>
                     (<[lit "vqa_session_id" := sid]> (session_state s))) pg snt)
            !! lit "vqa_session_id" = Some sid).
  { intros pg snt. cbn [session_state].
    rewrite (lookup_insert_ne _ _ _ _ vqa_caption_not_vqa_session_id).
    apply lookup_insert_eq. }
  assert (Hcaption : ∀ pg snt,
            session_state
              (UI (<[lit "vqa_caption" := caption]>
                     (<[lit "vqa_session_id" := sid]> (session_state s))) pg snt)
            !! lit "vqa_caption" = Some caption).
  { intros pg snt. cbn [session_state]. apply lookup_insert_eq. }
  cbn [session_state page sent]. fold sid caption.
  split; [| split; [| split]].
  - intros token Htoken Hne. rewrite session_status_run, Hsid. cbv zeta.
    cbn [from_option id session_state page sent]. rewrite Htoken.
    cbn [Py.truthy Py.slice_to format].
    by rewrite bool_decide_eq_false_2 by done.
  - intros Hs Hc. rewrite vqa_section_run, Hsid, Hcaption. cbv zeta.
    cbn [from_option id session_state page sent]. by rewrite Hs, Hc.
  - intros Hs Hc. rewrite vqa_section_run, Hsid, Hcaption. cbv zeta.
    cbn [from_option id session_state page sent]. by rewrite Hs, Hc.
  - intros Hs. split.
    + rewrite session_status_run, Hsid. cbv zeta.
      cbn [from_option id session_state page sent]. by rewrite Hs.
    + intros ask_button. rewrite vqa_section_run, Hsid. cbv zeta.
      cbn [from_option id session_state page sent]. by rewrite Hs.
Qed.

End AppFacts.

(** ** The session state across reruns *)

Section SessionStateFacts.
Import App.

(** One key of lines 22 to 27: an entry that is there stays, a missing
    one becomes [None]. *)
Lemma init_key_run (key : pystr) (s : ui) :
  ∃ st',
    init_key key s = (Ok (), UI st' (page s) (sent s))
    ∧ ∀ j, st' !! j
           = match session_state s !! j with
             | Some v => Some v
             | None => if decide (j = key) then Some PNone else None
             end.
Proof.
  unfold init_key.
  destruct (session_state s !! key) as [v|] eqn:Hkey.
  - exists (session_state s). split; [by destruct s |].
    intros j. destruct (session_state s !! j) eqn:Hj; [done |].
    destruct (decide (j = key)) as [->|]; [congruence | done].
  - exists (<[key := PNone]> (session_state s)). split; [done |].
    intros j. destruct (decide (j = key)) as [->|Hne].
    + by rewrite lookup_insert_eq, Hkey.
    + rewrite lookup_insert_ne by done. by destruct (session_state s !! j).
Qed.

Lemma init_key_present (key : pystr) (s : ui) :
  is_Some (session_state s !! key) → init_key key s = (Ok (), s).
Proof. intros [v Hv]. unfold init_key. by rewrite Hv. Qed.

(** X17: Lines 22 to 27: the initialisation of [st.session_state] keeps every
    entry that is there, so a rerun does not lose the session; it sets
    the three keys of the script that are missing to [None] and no other
    key; it draws and sends nothing, and running it again changes
    nothing. *)
Theorem init_session_state_keeps_entries (s : ui) :
  let script_keys :=
    [lit "vqa_session_id"; lit "vqa_caption"; lit "uploaded_image"] in
  ∃ st',
    init_session_state s = (Ok (), UI st' (page s) (sent s))
    ∧ (∀ key v, session_state s !! key = Some v → st' !! key = Some v)
    ∧ (∀ key, session_state s !! key = None →
         st' !! key = if decide (key ∈ script_keys) then Some PNone else None)
    ∧ init_session_state (UI st' (page s) (sent s))
      = (Ok (), UI st' (page s) (sent s)).
Proof.
  intros script_keys. unfold init_session_state, mbind, M_bind.
  destruct (init_key_run (lit "vqa_session_id") s) as (st1 & E1 & H1).
  destruct (init_key_run (lit "vqa_caption") (UI st1 (page s) (sent s)))
    as (st2 & E2 & H2).
  destruct (init_key_run (lit "uploaded_image") (UI st2 (page s) (sent s)))
    as (st3 & E3 & H3).
  cbn [session_state page sent] in E2, E3, H2, H3.
  rewrite E1. cbv beta iota. rewrite E2. cbv beta iota. rewrite E3.
  assert (Hlookup : ∀ j, st3 !! j
                         = match session_state s !! j with
                           | Some v => Some v
                           | None => if decide (j ∈ script_keys)
                                     then Some PNone else None
                           end).
  { intros j. rewrite H3, H2, H1. unfold script_keys.
    destruct (session_state s !! j); [done |].
    repeat case_decide; try done.
    all: match goal with
         | H : ¬ (_ ∈ _) |- _ =>
             exfalso; apply H; subst; rewrite !elem_of_cons; by auto
         | H : _ ∈ _ |- _ =>
             rewrite !elem_of_cons, elem_of_nil in H; by intuition
         end. }
  exists st3. split; [done |]. split; [| split].
  - intros key v Hkey. by rewrite Hlookup, Hkey.
  - intros key Hkey. by rewrite Hlookup, Hkey.
  - assert (Hpresent : ∀ key, key ∈ script_keys → is_Some (st3 !! key)).
    { intros key Hkey. rewrite Hlookup.
      destruct (session_state s !! key); [done |].
      by rewrite decide_True. }
    rewrite !init_key_present; [done | ..]; cbn [session_state];
      apply Hpresent; unfold script_keys; rewrite !elem_of_cons; by auto.
Qed.

End SessionStateFacts.

(** ** The session store *)

Section StoreFacts.
Import PyStr SessionStore.

Variable answer : pybytes → list (pystr * pystr) → pystr → option pystr.

(** What one [ask] does to a session of the table: nothing, or one turn
    appended when the request is for this session and is answered. *)
Lemma ask_session (now : Z) (sid0 q0 session_id : pystr) (st : store)
    (session : Session) :
  table st !! session_id = Some session →
  ∃ session',
    table (ask answer now sid0 q0 st).2 !! session_id = Some session'
    ∧ s_image session' = s_image session
    ∧ history session'
      = history session
        ++ turns session_id [(now, sid0, q0)] [(ask answer now sid0 q0 st).1].
Proof.
  intros Hsession. unfold ask.
  destruct (table st !! sid0) as [s0|] eqn:Hs0; cbn [fst snd turns].
  - destruct (strip q0) as [|c q]; cbn [fst snd turns].
    { exists session. by rewrite app_nil_r. }
    destruct (answer (s_image s0) (history s0) q0) as [a|]; cbn [fst snd turns table].
    + destruct (decide (sid0 = session_id)) as [->|Hne].
      * rewrite lookup_insert_eq. eexists. split; [reflexivity |].
        simplify_eq. done.
      * rewrite lookup_insert_ne by done.
        exists session. by rewrite app_nil_r.
    + exists session. by rewrite app_nil_r.
  - exists session. by rewrite app_nil_r.
Qed.

Lemma turns_cons (session_id : pystr) (req : Z * pystr * pystr)
    (reqs : list (Z * pystr * pystr)) (r : error_kind + pystr)
    (rs : list (error_kind + pystr)) :
  turns session_id (req :: reqs) (r :: rs)
  = turns session_id [req] [r] ++ turns session_id reqs rs.
Proof.
  destruct req as [[now sid0] q0], r as [e|a]; simpl; [done |].
  by destruct (decide (sid0 = session_id)).
Qed.

(** A run of requests appends to a session its answered questions, in the
    order of the requests, and nothing else. *)
Lemma asks_session (reqs : list (Z * pystr * pystr)) (session_id : pystr)
    (st : store) (session : Session) :
  table st !! session_id = Some session →
  ∃ session',
    table (asks answer reqs st).2 !! session_id = Some session'
    ∧ s_image session' = s_image session
    ∧ history session'
      = history session ++ turns session_id reqs (asks answer reqs st).1.
Proof.
  revert st session.
  induction reqs as [|[[now sid0] q0] reqs IH]; intros st session Hsession.
  - exists session. by rewrite app_nil_r.
  - cbn [asks].
    destruct (ask_session now sid0 q0 session_id st session Hsession)
      as (s1 & Hs1 & Himage1 & Hhistory1).
    destruct (ask answer now sid0 q0 st) as [r st1]; cbn [fst snd] in *.
    destruct (IH st1 s1 Hs1) as (s2 & Hs2 & Himage2 & Hhistory2).
    destruct (asks answer reqs st1) as [rs st2]; cbn [fst snd] in *.
    exists s2. split; [done |]. split; [congruence |].
    rewrite turns_cons, Hhistory2, Hhistory1. by rewrite <- (assoc_L (++)).
Qed.

(** C1: [ask] passes the inference service the image of the session, the
    history of the session as it stands and then the new question. The
    history is the one the session had with, appended to it in the order
    of the requests, the questions asked of this session that were
    answered, each with its answer; so after the turns
    [(q1,a1), ..., (qn,an)] the service receives exactly these pairs in
    this order, followed by the new question. This holds of the call that
    is logged and of the call that is made: for every service, what [ask]
    returns is what the service returns for these arguments, a failure
    when it fails, and the answer is the turn appended to the session. *)
Theorem C1_history_replay_order (reqs : list (Z * pystr * pystr))
    (session_id : pystr) (st : store) (session : Session) (now : Z)
    (question : pystr) :
  table st !! session_id = Some session →
  ¬ blank question →
  let appended := turns session_id reqs (asks answer reqs st).1 in
  let st' := (asks answer reqs st).2 in
  let served :=
    answer (s_image session) (history session ++ appended) question in
  (∃ session',
     table st' !! session_id = Some session'
     ∧ history session' = history session ++ appended)
  ∧ calls (ask answer now session_id question st').2
    = calls st'
      ++ [answer_call (s_image session) (history session ++ appended) question]
  ∧ (ask answer now session_id question st').1
    = match served with
      | Some a => inr a
      | None => inl InferenceFailure
      end
  ∧ ∃ session'',
      table (ask answer now session_id question st').2 !! session_id
      = Some session''
      ∧ s_image session'' = s_image session
      ∧ history session''
        = history session ++ appended
          ++ match served with
             | Some a => [(question, a)]
             | None => []
             end.
Proof.
  intros Hsession Hquestion appended st' served.
  destruct (asks_session reqs session_id st session Hsession)
    as (session' & Hsession' & Himage & Hhistory).
  fold st' in Hsession'. fold appended in Hhistory.
  split; [eauto |].
  rewrite <- strip_nil_iff in Hquestion.
  unfold ask. rewrite Hsession'.
  destruct (strip question) as [|c q]; [done |].
  rewrite Himage, Hhistory. fold served.
  destruct served as [a|]; cbn [fst snd table calls].
  - split; [done |]. split; [done |].
    rewrite lookup_insert_eq. eexists. split; [reflexivity |].
    cbn [s_image history]. split; [done |]. by rewrite <- (assoc_L (++)).
  - split; [done |]. split; [done |].
    exists session'. split; [done |]. split; [done |].
    by rewrite app_nil_r.
Qed.

End StoreFacts.

(** ** The client at work *)

Section AppRuns.
Import PyStr App.

(** Three spaces, asked by a client that holds a session and of a store
    that holds one. *)
Lemma C2_blank_question_rejected_witness :
  ask_button_clicked Demo.url Demo.builtin_str Demo.serving (lit "   ") Demo.in_session
  = (Ok (),
     UI (session_state Demo.in_session)
       [Widget Main error (PStr (lit "Question cannot be empty"))] [])
  ∧ SessionStore.ask StoreDemo.answer 140 StoreDemo.sid (lit "   ")
      StoreDemo.two_sessions
    = (inl SessionStore.InvalidInput, StoreDemo.two_sessions).
Proof.
  destruct (C2_blank_question_rejected Demo.url Demo.builtin_str Demo.serving
              (lit "   ")) as [Hclient Hstore].
  - repeat constructor.
  - split; [apply Hclient |].
    destruct (Hstore StoreDemo.answer 140%Z StoreDemo.sid StoreDemo.two_sessions
                (SessionStore.mkSession [Byte.x68; Byte.x69] (lit "A red square.")
                   [(lit "What color is the shape?", lit "Red.")] 100))
      as (st' & Hask & Hcalls & Htable & _).
    + by vm_compute.
    + rewrite Hask. f_equal.
      destruct st' as [t c]. simpl in Hcalls, Htable. by subst.
Defined.

(** A server that is up and returns 503 with a detail to the health
    probe: [init_vqa_session] fails, and the one error on the page does
    not contain the detail of the server. *)
Lemma C4_counterexample :
  Demo.loading [] (health_request Demo.url)
  = Ok (Demo.json_response 503 [("detail", "Model is loading")])
  ∧ init_vqa_session Demo.url Demo.b64decode Demo.builtin_str Demo.loading
      None (lit "aGk=") fresh
    = (Ok false,
       UI ∅
         [Widget Main error
            (PStr ([10060]
                   ++ lit " Backend is offline. Make sure it's running on http://localhost:8000"))]
         [health_request Demo.url])
  ∧ ¬ substring (lit "Model is loading")
        ([10060]
         ++ lit " Backend is offline. Make sure it's running on http://localhost:8000").
Proof.
  split; [reflexivity |]. split; [by vm_compute |].
  apply contains_false. by vm_compute.
Qed.

(** The POST is answered with 400 and a detail: the error on the page
    carries the detail. *)
Lemma C4_failures_reported_witness :
  ∃ s',
    init_vqa_session Demo.url Demo.b64decode Demo.builtin_str Demo.rejecting
      None (lit "aGk=") fresh = (Ok false, s')
    ∧ last (page s')
      = Some (Widget Main error (PStr (lit "Init failed: Invalid image file"))).
Proof.
  destruct (C4_failures_reported Demo.url Demo.b64decode Demo.builtin_str
              Demo.rejecting None (lit "aGk=") PNone [] fresh)
    as [(created & s' & Hrun & _ & Hstatus & _) _].
  assert (Hsent : sent s'
                  = sent fresh
                    ++ [health_request Demo.url;
                        init_request Demo.url
                          [(lit "image",
                            (lit "pasted.png", [Byte.x68; Byte.x69], lit "image/png"))]]).
  { vm_compute in Hrun. injection Hrun as _ <-. by vm_compute. }
  destruct (Hstatus _ (Demo.json_response 400 [("detail", "Invalid image file")]) Hsent)
    as [-> Hpage].
  - reflexivity.
  - by vm_compute.
  - exists s'. split; [exact Hrun |]. rewrite Hpage. by vm_compute.
Defined.

(** The server has lost the session: the client shows the error of the
    server, keeps the session identifier, and the session status drawn on
    the next run still reads "Session Active". *)
Lemma C6_counterexample :
  ∃ s1 s2,
    ask_button_clicked Demo.url Demo.builtin_str Demo.expired
      (lit "What color is the shape?") Demo.in_session = (Ok (), s1)
    ∧ page s1
      = [ Widget Main spinner (PStr (lit "Thinking..."));
          Widget Main error (PStr (lit "Ask failed: Session not found")) ]
    ∧ session_state s1 !! lit "vqa_session_id"
      = Some (PStr (lit "3f2a9c1e-5b7d-4c1a-9e2f-0a1b2c3d4e5f"))
    ∧ session_status Demo.builtin_str (UI (session_state s1) [] (sent s1))
      = (Ok (), s2)
    ∧ page s2
      = [ Widget Main success
            (PStr ([9989] ++ lit " Session Active" ++ [10] ++ lit "ID: 3f2a9c1e...")) ].
Proof.
  eexists _, _. split; [by vm_compute |].
  split; [by vm_compute |]. split; [by vm_compute |].
  split; by vm_compute.
Qed.

Lemma C6_failed_ask_keeps_session_witness :
  ∃ s',
    ask_button_clicked Demo.url Demo.builtin_str Demo.expired
      (lit "What color is the shape?") Demo.in_session = (Ok (), s')
    ∧ page s'
      = [ Widget Main spinner (PStr (lit "Thinking..."));
          Widget Main error (PStr (lit "Ask failed: Session not found")) ]
    ∧ session_state s' = session_state Demo.in_session.
Proof.
  destruct (C6_failed_ask_keeps_session Demo.url Demo.builtin_str Demo.expired
              (lit "What color is the shape?")
              (PStr (lit "3f2a9c1e-5b7d-4c1a-9e2f-0a1b2c3d4e5f"))
              (Demo.json_response 404 [("detail", "Session not found")])
              Demo.in_session)
    as (s' & Hrun & Hpage & Hstate & _).
  - rewrite <- strip_nil_iff. by vm_compute.
  - by vm_compute.
  - reflexivity.
  - by vm_compute.
  - exists s'. split; [exact Hrun |]. split; [| exact Hstate].
    rewrite Hpage. by vm_compute.
Defined.

(** A working server: the identifier and the caption it returns are what
    the client holds afterwards. *)
Lemma C5_init_success_mirrors_response_witness :
  ∃ s',
    init_vqa_session Demo.url Demo.b64decode Demo.builtin_str Demo.serving
      None (lit "aGk=") fresh = (Ok true, s')
    ∧ session_state s'
      = {[ lit "vqa_session_id" := PStr (lit "3f2a9c1e-5b7d-4c1a-9e2f-0a1b2c3d4e5f");
           lit "vqa_caption" := PStr (lit "A red square on a white background.") ]}.
Proof.
  destruct (init_vqa_session Demo.url Demo.b64decode Demo.builtin_str Demo.serving
              None (lit "aGk=") fresh) as [r s'] eqn:Hrun.
  destruct (C5_init_success_mirrors_response Demo.url Demo.b64decode
              Demo.builtin_str Demo.serving None (lit "aGk=") fresh s' r
              [(lit "image", (lit "pasted.png", [Byte.x68; Byte.x69], lit "image/png"))]
              (Demo.json_response 200
                 [("session_id", "3f2a9c1e-5b7d-4c1a-9e2f-0a1b2c3d4e5f");
                  ("caption", "A red square on a white background.")])
              (Demo.dict
                 [("session_id", "3f2a9c1e-5b7d-4c1a-9e2f-0a1b2c3d4e5f");
                  ("caption", "A red square on a white background.")])
              Hrun) as [-> Hstate].
  - vm_compute in Hrun. injection Hrun as _ <-. by vm_compute.
  - reflexivity.
  - reflexivity.
  - reflexivity.
  - exists s'. split; [reflexivity |]. rewrite Hstate. vm_compute. reflexivity.
Defined.

(** A working server: the sidebar shows its model and its device. *)
Lemma C7_health_probe_witness :
  sidebar_status Demo.url Demo.builtin_str Demo.serving fresh
  = (Ok (),
     UI ∅
       [ Widget Sidebar success (PStr ([9989] ++ lit " Healthy"));
         Widget Sidebar write
           (PStr (lit "Model: HuggingFaceTB/SmolVLM2-256M-Video-Instruct"));
         Widget Sidebar write (PStr (lit "Device: cpu")) ]
       [health_request Demo.url; health_request Demo.url]).
Proof.
  destruct (C7_health_probe Demo.url Demo.builtin_str Demo.serving fresh)
    as [_ Hsidebar].
  rewrite (Hsidebar _ _ _ eq_refl eq_refl eq_refl eq_refl).
  by vm_compute.
Defined.

(** A data URL with white space around it: the bytes are the decoding of
    what follows the comma. *)
Lemma C9_pasted_image_bytes_witness :
  pasted_bytes Demo.b64decode (lit "  data:image/png;base64,aGk=  ")
  = Ok [Byte.x68; Byte.x69].
Proof.
  destruct (C9_pasted_image_bytes Demo.url Demo.b64decode Demo.builtin_str
              Demo.Image_open Demo.serving (lit "  data:image/png;base64,aGk=  "))
    as (_ & Hdata & _).
  rewrite (Hdata (ex_intro _ (lit "image/png;base64,aGk=") eq_refl)
             (lit "data:image/png;base64") (lit "aGk=")).
  - reflexivity.
  - reflexivity.
  - apply (bool_decide_unpack _). by vm_compute.
Defined.

(** No server: the session the client holds is still there. *)
Lemma C10_init_failure_frame_witness :
  ∃ s',
    init_vqa_session Demo.url Demo.b64decode Demo.builtin_str Demo.offline
      None (lit "aGk=") Demo.in_session = (Ok false, s')
    ∧ session_state s' = session_state Demo.in_session.
Proof.
  destruct (C10_init_failure_frame Demo.url Demo.b64decode Demo.builtin_str
              Demo.offline None (lit "aGk=") Demo.in_session)
    as (created & s' & Hrun & Hfailed & _).
  assert (created = false) as ->.
  { vm_compute in Hrun. by injection Hrun as <- _. }
  exists s'. split; [exact Hrun |]. by apply Hfailed.
Defined.

(** No server: the probe is all the client sends. *)
Lemma init_sends_probe_then_post_witness :
  sent (init_vqa_session Demo.url Demo.b64decode Demo.builtin_str Demo.offline
          None (lit "aGk=") fresh).2
  = [health_request Demo.url].
Proof.
  destruct (init_sends_probe_then_post Demo.url Demo.b64decode Demo.builtin_str
              Demo.offline None (lit "aGk=") fresh)
    as [Hsent | (? & ? & ? & _ & probe & Hprobe & _)].
  - exact Hsent.
  - by vm_compute in Hprobe.
Defined.

(** A file in the uploader and a string in the paste field: the file is
    what goes out. *)
Lemma uploaded_file_sent_as_is_witness :
  sent (init_vqa_session Demo.url Demo.b64decode Demo.builtin_str Demo.serving
          (Some Demo.photo) (lit "aGk=") fresh).2
  = [ health_request Demo.url;
      init_request Demo.url
        [(lit "image",
          (lit "cat.jpg", [Byte.xff; Byte.xd8; Byte.xff], lit "image/jpeg"))] ].
Proof.
  destruct (uploaded_file_sent_as_is Demo.url Demo.b64decode Demo.builtin_str
              Demo.serving Demo.photo (lit "aGk=") fresh
              (Demo.json_response 200
                 [("status", "ok");
                  ("model", "HuggingFaceTB/SmolVLM2-256M-Video-Instruct");
                  ("device", "cpu")]))
    as [_ Hsent].
  - reflexivity.
  - reflexivity.
  - exact Hsent.
Defined.

(** A working server: the call returns [True] and the page gains the
    spinner and the success message. *)
Lemma init_true_iff_witness :
  let run := init_vqa_session Demo.url Demo.b64decode Demo.builtin_str
               Demo.serving None (lit "aGk=") fresh in
  run.1 = Ok true
  ∧ page run.2
    = [ Widget Main spinner (PStr (lit "Processing image and generating caption..."));
        Widget Main success (PStr ([9989] ++ lit " VQA session created successfully!")) ].
Proof.
  intros run.
  destruct (init_true_iff Demo.url Demo.b64decode Demo.builtin_str Demo.serving
              None (lit "aGk=") fresh) as [Hiff Hpage].
  assert (Htrue : run.1 = Ok true).
  { apply Hiff.
    exists [(lit "image", (lit "pasted.png", [Byte.x68; Byte.x69], lit "image/png"))],
      (Demo.json_response 200
         [("session_id", "3f2a9c1e-5b7d-4c1a-9e2f-0a1b2c3d4e5f");
          ("caption", "A red square on a white background.")]),
      (Demo.dict
         [("session_id", "3f2a9c1e-5b7d-4c1a-9e2f-0a1b2c3d4e5f");
          ("caption", "A red square on a white background.")]).
    split; [vm_compute; reflexivity |]. split; [reflexivity |].
    split; reflexivity. }
  split; [exact Htrue | exact (Hpage Htrue)].
Defined.

(** Nothing uploaded and nothing pasted gives the warning; one space in
    the paste field does not. *)
Lemma upload_warning_iff_witness :
  page (init_vqa_session Demo.url Demo.b64decode Demo.builtin_str Demo.serving
          None [] fresh).2
  = [Widget Main warning
       (PStr (lit "Please upload an image or paste image data first"))]
  ∧ page (init_vqa_session Demo.url Demo.b64decode Demo.builtin_str Demo.serving
            None (lit " ") fresh).2
    ≠ [Widget Main warning
         (PStr (lit "Please upload an image or paste image data first"))].
Proof.
  split.
  - destruct (upload_warning_iff Demo.url Demo.b64decode Demo.builtin_str
                Demo.serving None [] fresh) as [_ Hback].
    apply Hback. split; [| done]. eexists. split; reflexivity.
  - intros Hpage.
    destruct (upload_warning_iff Demo.url Demo.b64decode Demo.builtin_str
                Demo.serving None (lit " ") fresh) as [Hforth _].
    destruct (Hforth Hpage) as (_ & _ & Hpaste). by vm_compute in Hpaste.
Defined.

(** Base64 with a space before it and a line feed after it. *)
Lemma pasted_whitespace_ignored_witness :
  pasted_bytes Demo.b64decode (lit " " ++ lit "aGk=" ++ [10])
  = Ok [Byte.x68; Byte.x69].
Proof.
  destruct (pasted_whitespace_ignored Demo.url Demo.b64decode Demo.builtin_str
              Demo.serving (lit " ") (lit "aGk=") [10]) as [Hbytes _].
  - apply strip_nil_iff. vm_compute. reflexivity.
  - apply strip_nil_iff. vm_compute. reflexivity.
  - rewrite Hbytes. vm_compute. reflexivity.
Defined.

(** A working server: the click ends in a rerun, with the session
    stored. *)
Lemma init_button_reruns_on_success_witness :
  ∃ s',
    init_button_clicked Demo.url Demo.b64decode Demo.builtin_str Demo.serving
      None (lit "aGk=") fresh
    = (Raise (Exn (lit "RerunException") []), s')
    ∧ session_state s' !! lit "vqa_session_id"
      = Some (PStr (lit "3f2a9c1e-5b7d-4c1a-9e2f-0a1b2c3d4e5f")).
Proof.
  destruct (init_vqa_session Demo.url Demo.b64decode Demo.builtin_str Demo.serving
              None (lit "aGk=") fresh) as [r s'] eqn:Hrun.
  assert (r = Ok true) as ->.
  { vm_compute in Hrun. by injection Hrun as <- _. }
  exists s'. split.
  - by apply (init_button_reruns_on_success Demo.url Demo.b64decode
                Demo.builtin_str Demo.serving None (lit "aGk=") fresh s').
  - vm_compute in Hrun. injection Hrun as <-. vm_compute. reflexivity.
Defined.

(** A client that holds a session: the status shows the first eight
    characters of the identifier. *)
Lemma session_status_cases_witness :
  session_status Demo.builtin_str Demo.in_session
  = (Ok (),
     UI (session_state Demo.in_session)
       [Widget Main success
          (PStr ([9989] ++ lit " Session Active" ++ [10] ++ lit "ID: 3f2a9c1e..."))]
       []).
Proof.
  destruct (session_status_cases Demo.builtin_str Demo.in_session)
    as (_ & Hactive & _).
  destruct (Hactive (lit "3f2a9c1e-5b7d-4c1a-9e2f-0a1b2c3d4e5f")) as (Hrun & _).
  - vm_compute. reflexivity.
  - intros H. by vm_compute in H.
  - rewrite Hrun. vm_compute. reflexivity.
Defined.

(** No server: the sidebar shows "Offline" after the one probe. *)
Lemma sidebar_status_never_raises_witness :
  sidebar_status Demo.url Demo.builtin_str Demo.offline fresh
  = (Ok (),
     UI ∅
       [ Widget Sidebar error (PStr ([10060] ++ lit " Offline"));
         Widget Sidebar warning (PStr (lit "Backend URL: http://localhost:8000")) ]
       [health_request Demo.url]).
Proof.
  destruct (sidebar_status_never_raises Demo.url Demo.builtin_str Demo.offline fresh)
    as (s' & Hrun & Hstate & _ & Hoffline).
  destruct Hoffline as [Hsent Hpage].
  - intros (probe & Hprobe & _). by vm_compute in Hprobe.
  - rewrite Hrun. destruct s' as [st' page' sent']. cbn [session_state page sent] in *.
    subst. vm_compute. reflexivity.
Defined.

(** A question with a space after it goes out as it was typed. *)
Lemma ask_click_frame_witness :
  let run := ask_button_clicked Demo.url Demo.builtin_str Demo.serving
               (lit "What color? ") Demo.in_session in
  run.1 = Ok ()
  ∧ sent run.2
    = [ask_request Demo.url (PStr (lit "3f2a9c1e-5b7d-4c1a-9e2f-0a1b2c3d4e5f"))
         (lit "What color? ")]
  ∧ session_state run.2 = session_state Demo.in_session.
Proof.
  intros run.
  destruct (ask_click_frame Demo.url Demo.builtin_str Demo.serving
              (lit "What color? ") Demo.in_session)
    as (Hstate & _ & Hsends & _ & _).
  destruct (Hsends (PStr (lit "3f2a9c1e-5b7d-4c1a-9e2f-0a1b2c3d4e5f")))
    as [Hok Hsent].
  - rewrite <- strip_nil_iff. intros H. by vm_compute in H.
  - vm_compute. reflexivity.
  - split; [exact Hok |]. split; [exact Hsent | exact Hstate].
Defined.

(** A working server: the answer is shown under its heading. *)
Lemma ask_click_answer_shown_witness :
  page (ask_button_clicked Demo.url Demo.builtin_str Demo.serving
          (lit "What color is the shape?") Demo.in_session).2
  = [ Widget Main spinner (PStr (lit "Thinking..."));
      Widget Main subheader (PStr ([128172] ++ lit " Answer"));
      Widget Main success (PStr (lit "Red.")) ].
Proof.
  destruct (ask_click_answer_shown Demo.url Demo.builtin_str Demo.serving
              (lit "What color is the shape?")
              (PStr (lit "3f2a9c1e-5b7d-4c1a-9e2f-0a1b2c3d4e5f"))
              (Demo.json_response 200 [("answer", "Red.")])
              (Demo.dict [("answer", "Red.")])
              Demo.in_session) as [Hshown _].
  - rewrite <- strip_nil_iff. intros H. by vm_compute in H.
  - vm_compute. reflexivity.
  - reflexivity.
  - reflexivity.
  - reflexivity.
  - rewrite Hshown; vm_compute; reflexivity.
Defined.

(** Pasted data that does not decode: the one error, and the state as
    before. *)
Lemma preview_cases_witness :
  preview Demo.b64decode Demo.Image_open None (lit "not base64") Demo.in_session
  = (Ok (),
     UI (session_state Demo.in_session)
       [Widget Main error
          (PStr (lit "Failed to parse image. Check your data URL or base64."))]
       []).
Proof.
  destruct (preview_cases Demo.b64decode Demo.Image_open None (lit "not base64")
              Demo.in_session) as (_ & Hpasted & _).
  destruct (Hpasted eq_refl) as (Hok & _ & Hfails).
  destruct (preview Demo.b64decode Demo.Image_open None (lit "not base64")
              Demo.in_session) as [r s'].
  cbn [fst snd] in Hok, Hfails. rewrite Hok, Hfails.
  - reflexivity.
  - intros H. by vm_compute in H.
  - left. eexists. vm_compute. reflexivity.
Defined.

(** The question after a successful initialisation carries the
    identifier the server returned. *)
Lemma ask_after_init_uses_server_id_witness :
  ∃ s1,
    init_vqa_session Demo.url Demo.b64decode Demo.builtin_str Demo.serving
      None (lit "aGk=") fresh = (Ok true, s1)
    ∧ sent (ask_button_clicked Demo.url Demo.builtin_str Demo.serving
              (lit "What color is the shape?")
              (UI (session_state s1) [] (sent s1))).2
      = sent s1
        ++ [ask_request Demo.url
              (PStr (lit "3f2a9c1e-5b7d-4c1a-9e2f-0a1b2c3d4e5f"))
              (lit "What color is the shape?")].
Proof.
  destruct (init_vqa_session Demo.url Demo.b64decode Demo.builtin_str Demo.serving
              None (lit "aGk=") fresh) as [r s1] eqn:Hrun.
  assert (r = Ok true) as ->.
  { vm_compute in Hrun. by injection Hrun as <- _. }
  exists s1. split; [reflexivity |].
  destruct (ask_after_init_uses_server_id Demo.url Demo.b64decode Demo.builtin_str
              Demo.serving None (lit "aGk=") (lit "What color is the shape?")
              fresh s1 Hrun)
    as (files & resp & d & Hresp & Hjson & Hask).
  - rewrite <- strip_nil_iff. intros H. by vm_compute in H.
  - destruct (Hask []) as [Hsent _]. rewrite Hsent.
    assert (resp = Demo.json_response 200
                     [("session_id", "3f2a9c1e-5b7d-4c1a-9e2f-0a1b2c3d4e5f");
                      ("caption", "A red square on a white background.")]) as ->.
    { unfold init_request in Hresp. cbn [Demo.serving] in Hresp. congruence. }
    cbn [Demo.json_response json] in Hjson. injection Hjson as <-.
    do 3 f_equal; vm_compute; reflexivity.
Defined.

(** A working server: the section drawn after the initialisation shows
    the caption of the server. *)
Lemma session_shown_after_init_witness :
  ∃ s1,
    init_vqa_session Demo.url Demo.b64decode Demo.builtin_str Demo.serving
      None (lit "aGk=") fresh = (Ok true, s1)
    ∧ vqa_section Demo.url Demo.builtin_str Demo.serving false []
        (UI (session_state s1) [] (sent s1))
      = (Ok (),
         UI (session_state s1)
           [ Widget Main markdown (PStr (lit "---"));
             Widget Main heading
               (PStr ([50; 65039; 8419] ++ lit " Interact with Image"));
             Widget Main subheader (PStr ([128221] ++ lit " Initial Caption"));
             Widget Main info (PStr (lit "A red square on a white background."));
             Widget Main subheader (PStr ([10067] ++ lit " Ask Questions"));
             Widget Main write (PStr []) ]
           (sent s1)).
Proof.
  destruct (init_vqa_session Demo.url Demo.b64decode Demo.builtin_str Demo.serving
              None (lit "aGk=") fresh) as [r s1] eqn:Hrun.
  assert (r = Ok true) as ->.
  { vm_compute in Hrun. by injection Hrun as <- _. }
  exists s1. split; [reflexivity |].
  destruct (session_shown_after_init Demo.url Demo.b64decode Demo.builtin_str
              Demo.serving None (lit "aGk=") [] fresh s1 Hrun)
    as (files & resp & d & Hresp & Hjson & Hshown).
  assert (resp = Demo.json_response 200
                   [("session_id", "3f2a9c1e-5b7d-4c1a-9e2f-0a1b2c3d4e5f");
                    ("caption", "A red square on a white background.")]) as ->.
  { unfold init_request in Hresp. cbn [Demo.serving] in Hresp. congruence. }
  cbn [Demo.json_response json] in Hjson. injection Hjson as <-.
  destruct (Hshown []) as (_ & Hcaption & _).
  rewrite Hcaption; [| vm_compute; reflexivity | vm_compute; reflexivity].
  do 3 f_equal; vm_compute; reflexivity.
Defined.

(** A rerun of a client that holds a session: nothing is reset. *)
Lemma init_session_state_keeps_entries_witness :
  init_session_state Demo.in_session = (Ok (), Demo.in_session)
  ∧ ∃ st', init_session_state fresh = (Ok (), UI st' [] [])
           ∧ st' !! lit "vqa_session_id" = Some PNone
           ∧ st' !! lit "api_url" = None.
Proof.
  split; [vm_compute; reflexivity |].
  destruct (init_session_state_keeps_entries fresh)
    as (st' & Hrun & _ & Hmissing & _).
  exists st'. split; [exact Hrun |]. split.
  - rewrite (Hmissing (lit "vqa_session_id")) by reflexivity.
    apply decide_True. rewrite !elem_of_cons. by auto.
  - rewrite (Hmissing (lit "api_url")) by reflexivity.
    apply decide_False. rewrite !elem_of_cons, elem_of_nil.
    intros [H|[H|[H|[]]]]; by vm_compute in H.
Defined.

End AppRuns.

Section StoreRuns.
Import PyStr SessionStore StoreDemo.

(** Requests for two sessions, one that fails and one that is blank among
    them, to a service that answers with the questions it was shown: the
    service is shown the first turn of the session and the two turns the
    run appended to it, in that order, and its answer says so. *)
Lemma C1_history_replay_order_witness :
  let reqs :=
    [ (130, sid, lit "Is it large?"); (131, other, lit "What animal?");
      (132, sid, lit "fail"); (133, sid, lit "   ");
      (134, sid, lit "Any text?") ]%Z in
  let st' := (asks recall reqs two_sessions).2 in
  calls (ask recall 140 sid (lit "What else?") st').2
  = calls st'
    ++ [ answer_call [Byte.x68; Byte.x69]
           [ (lit "What color is the shape?", lit "Red.");
             (lit "Is it large?", lit "What color is the shape?|");
             (lit "Any text?", lit "What color is the shape?|Is it large?|") ]
           (lit "What else?") ]
  ∧ (ask recall 140 sid (lit "What else?") st').1
    = inr (lit "What color is the shape?|Is it large?|Any text?|").
Proof.
  intros reqs st'.
  destruct (C1_history_replay_order recall reqs sid two_sessions
              (mkSession [Byte.x68; Byte.x69] (lit "A red square.")
                 [(lit "What color is the shape?", lit "Red.")] 100)
              140 (lit "What else?")) as (_ & Hcall & Hresult & _).
  - by vm_compute.
  - rewrite <- strip_nil_iff. by vm_compute.
  - fold st' in Hcall, Hresult. rewrite Hcall, Hresult. split.
    + vm_compute. reflexivity.
    + vm_compute. reflexivity.
Defined.

End StoreRuns.
